(** * Authentication core of the Social-Network backend

    A shallow embedding of [AuthenService] and [AuthenController]
    (src/utils/user-profile.util.ts, second and third document) together
    with the collaborators they call: the bcrypt hasher, the JWT service,
    the mailer and the account store.

    JavaScript objects are finite maps from attribute names to values, the
    [async] methods are computations in a state-and-exception monad over
    the world the service can touch (account table, outbox, clock). *)

From stdpp Require Import gmap strings list.
From Stdlib Require Import ZArith.

Open Scope Z_scope.
Open Scope string_scope.

(** ** JavaScript values and objects *)

Inductive JsValue :=
  | VStr (s : string)
  | VBool (b : bool)
  | VNum (n : Z)
  | VNull.

#[global] Instance JsValue_eq_dec : EqDecision JsValue.
Proof. solve_decision. Defined.

(** An entity or a token payload: attribute name to value; an absent key
    reads as [undefined]. *)
Abbreviation Account := (gmap string JsValue).
Abbreviation Claims := (gmap string JsValue).

(** Truthiness of a possibly [undefined] value, as [if (x)] and [!x] see it. *)
Definition truthy (v : option JsValue) : bool :=
  match v with
  | Some (VStr s) => bool_decide (s ≠ "")
  | Some (VBool b) => b
  | Some (VNum n) => bool_decide (n ≠ 0)
  | Some VNull | None => false
  end.

(** A DTO field of TypeScript type [string] that the request may omit. *)
Definition js (s : option string) : option JsValue := VStr <$> s.

(** The string behind a field already known to be truthy. *)
Definition str (s : option string) : string := default "" s.

(** [{ email }]: an object literal with one shorthand property. *)
Definition obj1 (k : string) (v : option JsValue) : Claims :=
  from_option (λ x, {[ k := x ]}) ∅ v.

(** ** Request shapes, replies and exceptions *)

Record AuthenDTO := {
  username : option string;
  email : option string;
  password : option string;
}.

Record Mail := {
  to : option JsValue;
  subject : string;
  text : string;
  html : string;
}.

Record Reply := {
  message : string;
  token : option string;
}.

#[global] Instance Reply_eq_dec : EqDecision Reply.
Proof. solve_decision. Defined.

Inductive Exn :=
  | BadRequestException (msg : string)
  | ConflictException (msg : string)
  | JsonWebTokenError
  | TokenExpiredError
  | BcryptError
  | QueryFailedError
  | MailerError.

#[global] Instance Exn_eq_dec : EqDecision Exn.
Proof. solve_decision. Defined.

(** ** The world and the monad of [async] methods *)

Inductive Lookup :=
  | ByUsername (key : string)
  | ByEmail (key : option JsValue).

Record World := {
  clock : Z;
  accounts : list Account;
  outbox : list Mail;
  lookups : list Lookup;
}.

Inductive Completion (A : Type) :=
  | Return (a : A)
  | Throw (e : Exn).
Arguments Return {A} a.
Arguments Throw {A} e.

Definition M (A : Type) : Type := World → Completion A * World.

#[global] Instance M_ret : MRet M := λ A a w, (Return a, w).

#[global] Instance M_bind : MBind M := λ A B f m w,
  match m w with
  | (Return a, w') => f a w'
  | (Throw e, w') => (Throw e, w')
  end.

Definition throw {A} (e : Exn) : M A := λ w, (Throw e, w).

(** [try { body } catch (error) { handler }] *)
Definition try_catch {A} (body : M A) (handler : Exn → M A) : M A := λ w,
  match body w with
  | (Throw e, w') => handler e w'
  | r => r
  end.

Definition now : M Z := λ w, (Return (clock w), w).

Definition set_accounts (rows : list Account) (w : World) : World :=
  {| clock := clock w; accounts := rows; outbox := outbox w; lookups := lookups w |}.

Definition log_lookup (q : Lookup) (w : World) : World :=
  {| clock := clock w; accounts := accounts w; outbox := outbox w;
     lookups := lookups w ++ [q] |}.

Definition push_mail (m : Mail) (w : World) : World :=
  {| clock := clock w; accounts := accounts w; outbox := outbox w ++ [m];
     lookups := lookups w |}.

(** ** Collaborators outside the repository *)

(** bcrypt: [hash(data, rounds)] and [compare(data, encrypted)]. The salt
    drawn by a call stays inside [bcrypt_hash]. *)
Class Bcrypt := {
  bcrypt_hash : string → Z → string;
  bcrypt_compare : string → string → bool;
}.

(** @nestjs/jwt: [sign(payload, { expiresIn })] at a given time and
    [verify(token)] at a given time, which yields the decoded payload or
    one of the two library errors. *)
Class JwtService := {
  jwt_sign : Z → Claims → option string → string;
  jwt_verify : Z → string → Claims + Exn;
}.

(** The part of [env] (src/config) the service reads. *)
Class Env := {
  env_dns : string;
  env_mailer_time : string;
}.

(** The mail transport behind [MailService.sendMail]. *)
Class Transport := {
  delivers : Mail → bool;
}.

(** ** The account store

    [UserAccountUtil] (src/modules/authen/user-account.util.ts) and the
    [UserAccount] entity are not part of the sources at hand. The table
    is a list of accounts in insertion order. *)

Definition has_attr (k : string) (v : JsValue) (a : Account) : bool :=
  bool_decide (a !! k = Some v).

(** The first account whose attribute [k] equals the key; a key that is
    [undefined] matches nothing. *)
Definition find_by (k : string) (v : option JsValue) (rows : list Account)
  : option Account :=
  match v with
  | Some x => List.find (has_attr k x) rows
  | None => None
  end.

Definition same_attr (k : string) (a r : Account) : bool :=
  match a !! k with
  | Some v => has_attr k v r
  | None => false
  end.

(** The uniqueness constraint on username and on email. *)
Definition clashes (a : Account) (rows : list Account) : bool :=
  existsb (λ r, same_attr "username" a r || same_attr "email" a r) rows.

Definition stamp (t : Z) (a : Account) : Account :=
  <[ "created_at" := VNum t ]> (<[ "updated_at" := VNum t ]> a).

(** The row loaded as [user] is written back as [new]. *)
Definition replace_row (user new : Account) (rows : list Account)
  : list Account :=
  (λ r, if decide (r = user) then new else r) <$> rows.

Module userAccountUtil.

(** Modelled from the spec: the Credential Store lookup
    [findByUsername(s) -> Account?] of [UserAccountUtil], which is
    missing: the account with that username, or none. *)
Definition findByUsername (username : string) : M (option Account) := λ w,
  (Return (find_by "username" (Some (VStr username)) (accounts w)),
   log_lookup (ByUsername username) w).

(** Modelled from the spec: the Credential Store lookup
    [findByEmail(s) -> Account?] of [UserAccountUtil], which is missing:
    the account with that email, or none. *)
Definition findByEmail (email : option JsValue) : M (option Account) := λ w,
  (Return (find_by "email" email (accounts w)), log_lookup (ByEmail email) w).

(** Modelled from the spec: [create(username, hash) -> Account] of the
    missing [UserAccountUtil]: a new unverified account with that
    username and hash, not yet persisted. *)
Definition create (username hash : string) : Account :=
  {[ "username" := VStr username; "password" := VStr hash;
     "verifyEmail" := VBool false ]}.

(** Modelled from the spec: [save(Account) -> void] of the missing
    [UserAccountUtil]: persists the account with its creation and update
    timestamps; the store's uniqueness constraint on username and on
    email rejects a second account under either. *)
Definition save (user : Account) : M unit := λ w,
  if clashes user (accounts w) then (Throw QueryFailedError, w)
  else (Return (), set_accounts (accounts w ++ [stamp (clock w) user]) w).

(** Modelled from the spec: [updatePassword(Account, hash) -> void] of
    the missing [UserAccountUtil]: the Credential Store persists the
    hash it is handed as the account's password attribute. *)
Definition updatePassword (user : Account) (hash : string) : M unit := λ w,
  (Return (),
   set_accounts
     (replace_row user
        (<[ "updated_at" := VNum (clock w) ]>
           (<[ "password" := VStr hash ]> user))
        (accounts w)) w).

(** Modelled from the spec: [markVerified(Account) -> void], which the
    service calls as [updateVerifyEmail], of the missing
    [UserAccountUtil]: the Credential Store sets verified = true. *)
Definition updateVerifyEmail (user : Account) : M unit := λ w,
  (Return (),
   set_accounts
     (replace_row user
        (<[ "updated_at" := VNum (clock w) ]>
           (<[ "verifyEmail" := VBool true ]> user))
        (accounts w)) w).

End userAccountUtil.

(** ** Collaborator calls as the service makes them *)

Definition nl : string := String (Ascii.ascii_of_nat 10) "".
Definition dq : string := String (Ascii.ascii_of_nat 34) "".

Module bcrypt.
Section Calls.
Context `{!Bcrypt}.

(** [bcrypt.hash(data, rounds)] on a string. *)
Definition hash (data : string) (rounds : Z) : M string :=
  mret (bcrypt_hash data rounds).

(** [bcrypt.compare(data, encrypted)]: the library rejects when either
    argument is missing or is not a string. *)
Definition compare (data : option string) (encrypted : option JsValue)
  : M bool :=
  match data, encrypted with
  | Some d, Some (VStr h) => mret (bcrypt_compare d h)
  | _, _ => throw BcryptError
  end.
End Calls.
End bcrypt.

Module jwtService.
Section Calls.
Context `{!JwtService}.

(** [this.jwtService.sign(payload, { expiresIn })] *)
Definition sign (payload : Claims) (expiresIn : option string)
  : M string :=
  t ← now; mret (jwt_sign t payload expiresIn).

(** [this.jwtService.verify(token)] *)
Definition verify (token : string) : M Claims :=
  t ← now;
  match jwt_verify t token with
  | inl decoded => mret decoded
  | inr e => throw e
  end.
End Calls.
End jwtService.

Module mailService.
Section Calls.
Context `{!Transport}.

(** [this.mailService.sendMail(...)] *)
Definition sendMail (m : Mail) : M unit := λ w,
  if delivers m then (Return (), push_mail m w)
  else (Throw MailerError, w).
End Calls.
End mailService.

(** ** AuthenService *)

Module AuthenService.
Section Methods.
Context `{!Bcrypt, !JwtService, !Env, !Transport}.

Definition createUser (dto : AuthenDTO) : M (option Z) :=
let username := username dto in
let password := password dto in
if negb (truthy (js username)) || negb (truthy (js password))
then mret (Some 400) else
findUser ← userAccountUtil.findByUsername (str username);
if bool_decide (is_Some findUser) then mret (Some 409) else
ecryptPassword ← bcrypt.hash (str password) 12;
let user := userAccountUtil.create (str username) ecryptPassword in
userAccountUtil.save user;;
mret None.

(** [const { password, profile, verifyEmail, created_at, updated_at,
  ...user } = findUser]: the rest object [user]. *)
Definition rest_user (findUser : Account) : Claims :=
delete "updated_at" (delete "created_at" (delete "verifyEmail"
  (delete "profile" (delete "password" findUser)))).

Definition validateUser (dto : AuthenDTO) : M (option string) :=
let username := username dto in
let email := email dto in
let password := password dto in
if truthy (js username) && truthy (js email) then mret None else
findUser ← (if truthy (js username)
            then userAccountUtil.findByUsername (str username)
            else mret None);
findUser ← (if negb (bool_decide (is_Some findUser)) && truthy (js email)
            then
              userByEmail ← userAccountUtil.findByEmail (js email);
              if truthy (userByEmail ≫= (.!! "verifyEmail"))
              then mret userByEmail else mret findUser
            else mret findUser);
match findUser with
| None => mret None
| Some findUser =>
    matched ← bcrypt.compare password (findUser !! "password");
    if (matched : bool) then
      tok ← jwtService.sign (rest_user findUser) None;
      mret (Some tok)
    else mret None
end.

Definition reset_mail (email : string) (resetLink : string) : Mail :=
{| to := Some (VStr email);
   subject := "Reset password";
   text := "Dear user," ++ nl ++ nl
           ++ "We received a request to reset your password...";
   html := "
                <h1>Dear user,</h1>
                <p>We received a request to reset your password. If you did not make this request, please ignore this email.</p>
                <p>To reset your password, click the link below:</p>
                <p><a href=" ++ dq ++ resetLink ++ dq ++ ">" ++ resetLink ++ "</a></p>
                <p>This link will expire in <strong>" ++ env_mailer_time ++ "</strong> for security reasons.</p>
                <p>If you have any issues, please contact our support team.</p>
                <p>Best regards,<br>Your Website Team</p>
            " |}.

Definition forgotPassword (email : string) : M (option Z) :=
user ← userAccountUtil.findByEmail (Some (VStr email));
if negb (bool_decide (is_Some user)) then mret (Some 400) else
let payload := obj1 "email" (Some (VStr email)) in
token ← jwtService.sign payload (Some env_mailer_time);
let resetLink := env_dns ++ "/reset-password?token=" ++ token in
mailService.sendMail (reset_mail email resetLink);;
mret None.

Definition resetPassword (token : string) (newPassword : string)
: M (option Z) :=
try_catch
  (decoded ← jwtService.verify token;
   let email := decoded !! "email" in
   user ← userAccountUtil.findByEmail email;
   match user with
   | None => mret (Some 400)
   | Some user =>
       userAccountUtil.updatePassword user newPassword;;
       mret None
   end)
  (λ error, mret (Some 409)).

Definition verify_mail (email : string) (verifyLink : string) : Mail :=
{| to := Some (VStr email);
   subject := "Verify email";
   text := "Dear user," ++ nl ++ nl
           ++ "We received a request to verify your email...";
   html := "
                <h1>Dear user,</h1>
                <p>We received a request to verify your email. If you did not make this request, please ignore this email.</p>
                <p>To verify your email, click the link below:</p>
                <p><a href=" ++ dq ++ verifyLink ++ dq ++ ">" ++ verifyLink ++ "</a></p>
                <p>This link will expire in <strong>" ++ env_mailer_time ++ "</strong> for security reasons.</p>
                <p>If you have any issues, please contact our support team.</p>
                <p>Best regards,<br>Your Website Team</p>
            " |}.

Definition verifyEmail (email : string) : M (option Z) :=
user ← userAccountUtil.findByEmail (Some (VStr email));
match user with
| None => mret (Some 400)
| Some user =>
    if truthy (user !! "verifyEmail") then mret (Some 409) else
    let payload := obj1 "email" (Some (VStr email)) in
    token ← jwtService.sign payload (Some env_mailer_time);
    let verifyLink := env_dns ++ "/verify?token=" ++ token in
    mailService.sendMail (verify_mail email verifyLink);;
    mret None
end.

(** [verify] answers a status number or the object
  [{ message: 'Verified' }]. *)
Definition verify (token : string) : M (Z + Reply) :=
try_catch
  (decoded ← jwtService.verify token;
   let email := decoded !! "email" in
   user ← userAccountUtil.findByEmail email;
   match user with
   | None => mret (inl 409)
   | Some user =>
       userAccountUtil.updateVerifyEmail user;;
       mret (inr {| message := "Verified"; token := None |})
   end)
  (λ error, mret (inl 400)).

End Methods.
End AuthenService.

(** ** AuthenController *)

Module AuthenController.
Section Routes.
Context `{!Bcrypt, !JwtService, !Env, !Transport}.

Definition register (authenDTO : AuthenDTO) : M Reply :=
status ← AuthenService.createUser authenDTO;
if bool_decide (status = Some 400)
then throw (BadRequestException "Username and password are required") else
if bool_decide (status = Some 409)
then throw (ConflictException "Username already exists") else
mret {| message := "User created successfully"; token := None |}.

Definition login (authenDTO : AuthenDTO) : M Reply :=
user ← AuthenService.validateUser authenDTO;
if negb (truthy (js user))
then throw (BadRequestException "Wrong username/email or password") else
mret {| message := "Login successfully"; token := user |}.

Definition forgotPassword (email : string) : M Reply :=
status ← AuthenService.forgotPassword email;
if bool_decide (status = Some 400)
then throw (BadRequestException "Account not exist") else
mret {| message := "Reset link sent"; token := None |}.

Definition resetPassword (token newPassword : string) : M Reply :=
status ← AuthenService.resetPassword token newPassword;
if bool_decide (status = Some 400)
then throw (BadRequestException "Wrong token") else
if bool_decide (status = Some 409)
then throw (ConflictException "Token invalid/expired") else
mret {| message := "New password set"; token := None |}.

Definition verifyEmail (email : string) : M Reply :=
status ← AuthenService.verifyEmail email;
if bool_decide (status = Some 400)
then throw (BadRequestException "Account not exist") else
if bool_decide (status = Some 409)
then throw (ConflictException "Email has been verified") else
mret {| message := "Verify link sent"; token := None |}.

Definition acceptVerifyEmail (token : string) : M Reply :=
status ← AuthenService.verify token;
if bool_decide (status = inl 400)
then throw (BadRequestException "Token invalid/expired") else
if bool_decide (status = inl 409)
then throw (ConflictException "Wrong token") else
mret {| message := "Verified"; token := None |}.

End Routes.
End AuthenController.

Import AuthenService.

(** ** The failures a caller sees

    The exceptions the controller raises, under the names the design
    document gives to the error kinds. Login has a single failure. *)

Definition MissingField : Exn :=
  BadRequestException "Username and password are required".
Definition UsernameTaken : Exn :=
  ConflictException "Username already exists".
Definition InvalidCredentials : Exn :=
  BadRequestException "Wrong username/email or password".
Definition TokenRejected : Exn :=
  ConflictException "Token invalid/expired".
Definition AlreadyVerified : Exn :=
  ConflictException "Email has been verified".
Definition Verified : Reply := {| message := "Verified"; token := None |}.

(** ** Test doubles for the collaborators

    Small executable stand-ins, used to run the service on concrete
    requests. *)

Definition fake_bcrypt : Bcrypt :=
  {| bcrypt_hash data rounds := "$2b$" ++ data;
     bcrypt_compare data encrypted := bool_decide (encrypted = "$2b$" ++ data) |}.

(** Tokens of the fake JWT service: ["mail:" ++ e] carries [{ email: e }],
    ["user:" ++ u] carries [{ username: u }], ["late:" ++ e] is a token for
    [e] past its expiry, and everything else has a bad signature. *)
Definition fake_sign (t : Z) (payload : Claims) (expiresIn : option string)
  : string :=
  match payload !! "email", payload !! "username" with
  | Some (VStr e), _ => "mail:" ++ e
  | _, Some (VStr u) => "user:" ++ u
  | _, _ => "anon:"
  end.

Definition fake_verify (t : Z) (token : string) : Claims + Exn :=
  match token with
  | String c1 (String c2 (String c3 (String c4 (String c5 body)))) =>
      let tag := String c1 (String c2 (String c3 (String c4 (String c5 "")))) in
      if bool_decide (tag = "mail:") then inl {[ "email" := VStr body ]}
      else if bool_decide (tag = "user:") then inl {[ "username" := VStr body ]}
      else if bool_decide (tag = "anon:") then inl ∅
      else if bool_decide (tag = "late:") then inr TokenExpiredError
      else inr JsonWebTokenError
  | _ => inr JsonWebTokenError
  end.

Definition fake_jwt : JwtService :=
  {| jwt_sign := fake_sign; jwt_verify := fake_verify |}.

Definition fake_env : Env :=
  {| env_dns := "http://localhost:3000"; env_mailer_time := "15m" |}.

Definition fake_transport : Transport := {| delivers m := true |}.

Definition world0 : World :=
  {| clock := 1000; accounts := []; outbox := []; lookups := [] |}.

(** An unverified account that already has a mailbox on file. *)
Definition alice : Account :=
  {[ "username" := VStr "alice"; "email" := VStr "alice@x.com";
     "password" := VStr "$2b$Secret1!"; "verifyEmail" := VBool false;
     "created_at" := VNum 900; "updated_at" := VNum 900 ]}.

Definition world_alice : World :=
  {| clock := 1000; accounts := [alice]; outbox := []; lookups := [] |}.

(** The same world at another moment. *)
Definition at_time (t : Z) (w : World) : World :=
  {| clock := t; accounts := accounts w; outbox := outbox w;
     lookups := lookups w |}.

(** A transport that is down. *)
Definition dead_transport : Transport := {| delivers m := false |}.

(** A verified account. *)
Definition carol : Account :=
  {[ "username" := VStr "carol"; "email" := VStr "carol@x.com";
     "password" := VStr "$2b$Pass3#"; "verifyEmail" := VBool true;
     "created_at" := VNum 800; "updated_at" := VNum 950 ]}.

Definition world_both : World :=
  {| clock := 1000; accounts := [alice; carol]; outbox := []; lookups := [] |}.

(** ** Observations on the account table *)

(** The usernames on file, in table order. *)
Definition usernames (rows : list Account) : list JsValue :=
  omap (.!! "username") rows.

(** The lookups a [validateUser] call sends to the store. *)
Definition login_lookups (dto : AuthenDTO) : list Lookup :=
  match truthy (js (username dto)), truthy (js (email dto)) with
  | true, false => [ByUsername (str (username dto))]
  | false, true => [ByEmail (js (email dto))]
  | _, _ => []
  end.

(** * Properties *)

(** ** The store *)

Lemma find_fmap {A} (p : A → bool) (f : A → A) (rows : list A) :
  (∀ r, p (f r) = p r) → List.find p (f <$> rows) = f <$> List.find p rows.
Proof.
  intros Hp. induction rows as [|r rows IH]; [done|].
  cbn. rewrite Hp. destruct (p r); [done|apply IH].
Qed.

Lemma find_by_replace k v (user new : Account) (rows : list Account) :
  find_by k v rows = Some user →
  new !! k = user !! k →
  find_by k v (replace_row user new rows) = Some new.
Proof.
  destruct v as [x|]; [|done]. unfold find_by, replace_row.
  intros Hfind Hk. rewrite find_fmap.
  - rewrite Hfind. cbn. by rewrite decide_True.
  - intros r. unfold has_attr. case_decide; [subst r; by rewrite Hk|done].
Qed.

Lemma find_by_app k x (a : Account) (rows : list Account) :
  find_by k (Some x) rows = None →
  has_attr k x a = true →
  find_by k (Some x) (rows ++ [a]) = Some a.
Proof.
  unfold find_by. intros Hnone Ha.
  induction rows as [|r rows IH]; cbn in *.
  - by rewrite Ha.
  - destruct (has_attr k x r); [done|by apply IH].
Qed.

Lemma find_by_elem k v (a : Account) (rows : list Account) :
  find_by k v rows = Some a → a ∈ rows.
Proof.
  destruct v as [x|]; [|done]. unfold find_by. intros Hfind.
  apply list_elem_of_In. by apply find_some in Hfind as [? _].
Qed.

Lemma clashes_create u h (rows : list Account) :
  find_by "username" (Some (VStr u)) rows = None →
  clashes (userAccountUtil.create u h) rows = false.
Proof.
  unfold find_by, clashes. intros Hnone.
  induction rows as [|r rows IH]; cbn in *; [done|].
  assert (same_attr "username" (userAccountUtil.create u h) r = has_attr "username" (VStr u) r)
    as -> by done.
  assert (same_attr "email" (userAccountUtil.create u h) r = false) as -> by done.
  destruct (has_attr "username" (VStr u) r); [done|]. by apply IH.
Qed.

Lemma truthy_js_Some (s : string) : s ≠ "" → truthy (js (Some s)) = true.
Proof. intros Hs. cbn. by rewrite bool_decide_eq_true. Qed.

Lemma rest_user_secret (a : Account) (k : string) :
  k ∈ ["password"; "profile"; "verifyEmail"; "created_at"; "updated_at"] →
  rest_user a !! k = None.
Proof.
  unfold rest_user. intros Hk.
  repeat (apply elem_of_cons in Hk as [->|Hk]); [..|by apply elem_of_nil in Hk];
    by simplify_map_eq.
Qed.

Lemma rest_user_public (a : Account) (k : string) :
  k ∉ ["password"; "profile"; "verifyEmail"; "created_at"; "updated_at"] →
  rest_user a !! k = a !! k.
Proof.
  unfold rest_user. intros Hk.
  rewrite !lookup_delete_ne; [done|..]; intros <-; apply Hk; set_solver.
Qed.

Lemma rest_user_no_profile (a : Account) :
  a !! "profile" = None →
  rest_user a
  = delete "updated_at" (delete "created_at" (delete "verifyEmail"
      (delete "password" a))).
Proof.
  intros Hp. unfold rest_user.
  rewrite (delete_id (delete "password" a) "profile"); [done|].
  by rewrite lookup_delete_ne.
Qed.

Lemma rest_user_create (t : Z) (u h : string) :
  rest_user (stamp t (userAccountUtil.create u h)) = {[ "username" := VStr u ]}.
Proof.
  apply map_eq. intros k. unfold stamp, userAccountUtil.create.
  destruct (decide (k = "username")) as [->|]; [done|].
  rewrite lookup_singleton_ne by done.
  destruct (decide (k ∈ ["password"; "profile"; "verifyEmail"; "created_at";
                         "updated_at"])) as [Hk|Hk].
  - by apply rest_user_secret.
  - rewrite rest_user_public by done.
    rewrite !lookup_insert_ne, lookup_singleton_ne; [done|..];
      intros <-; apply Hk; set_solver.
Qed.

(** ** The service *)

Section Properties.
Context `{!Bcrypt, !JwtService, !Env, !Transport}.

(** Unfolds one layer of the monad and of the collaborator calls. *)
Ltac run :=
  repeat progress
    (unfold mbind, M_bind, mret, M_ret, throw, try_catch, now, bcrypt.hash,
       bcrypt.compare, jwtService.sign, jwtService.verify,
       userAccountUtil.findByUsername, userAccountUtil.findByEmail,
       userAccountUtil.save, userAccountUtil.updatePassword,
       userAccountUtil.updateVerifyEmail, mailService.sendMail;
     cbn [fst snd accounts clock outbox lookups set_accounts log_lookup
          push_mail username email password str from_option id]).

(** C1. For every non-empty username and password, on a store with no
    account under that username, [createUser] succeeds and persists the
    stamped new account; [register] answers "User created successfully";
    a following [validateUser] with that username and password, in any
    later world [w2] holding the same accounts, returns the session token signed
    over the account minus its password hash, verified flag and
    timestamps, which is the username alone; [login] hands that token
    out. The hasher is assumed to accept the password against its own
    hash. *)
Theorem register_then_login (w w2 : World) (u p : string) :
  u ≠ "" → p ≠ "" →
  find_by "username" (Some (VStr u)) (accounts w) = None →
  bcrypt_compare p (bcrypt_hash p 12) = true →
  let dto := {| username := Some u; email := None; password := Some p |} in
  let acct := stamp (clock w) (userAccountUtil.create u (bcrypt_hash p 12)) in
  let w1 := (createUser dto w).2 in
  let tok := jwt_sign (clock w2) (rest_user acct) None in
  accounts w2 = accounts w1 →
  (createUser dto w).1 = Return None ∧
  (AuthenController.register dto w).1
    = Return {| message := "User created successfully"; token := None |} ∧
  accounts w1 = (accounts w ++ [acct])%list ∧
  find_by "username" (Some (VStr u)) (accounts w1) = Some acct ∧
  rest_user acct
    = delete "updated_at" (delete "created_at" (delete "verifyEmail"
        (delete "password" acct))) ∧
  rest_user acct = {[ "username" := VStr u ]} ∧
  (validateUser dto w2).1 = Return (Some tok) ∧
  (tok ≠ "" →
   (AuthenController.login dto w2).1
     = Return {| message := "Login successfully"; token := Some tok |}).
Proof.
  intros Hu Hp Hfree Hrt dto acct w1 tok Hw2.
  assert ((createUser dto w).1 = Return None ∧
          accounts w1 = (accounts w ++ [acct])%list) as [Hret Hacc].
  { subst w1. unfold createUser, dto. run.
    rewrite !truthy_js_Some by done. cbn [negb orb].
    rewrite Hfree. rewrite bool_decide_eq_false_2 by (by intros [? ?]).
    by rewrite clashes_create. }
  assert (find_by "username" (Some (VStr u)) (accounts w1) = Some acct)
    as Hfound.
  { rewrite Hacc. apply find_by_app; [done|]. by apply bool_decide_eq_true. }
  assert ((validateUser dto w2).1 = Return (Some tok)) as Hv.
  { unfold validateUser, dto. run.
    rewrite truthy_js_Some by done.
    cbn [andb js fmap option_fmap option_map truthy].
    rewrite Hw2, Hfound.
    rewrite bool_decide_eq_true_2 by eauto. cbn [negb andb].
    replace (acct !! "password") with (Some (VStr (bcrypt_hash p 12)))
      by done.
    by rewrite Hrt. }
  split_and!; [done| |done|done| | |done|].
  - unfold AuthenController.register. run. destruct (createUser dto w) as [r w'].
    cbn in Hret. by rewrite Hret.
  - by apply rest_user_no_profile.
  - apply rest_user_create.
  - intros Htok. unfold AuthenController.login. run.
    destruct (validateUser dto w2) as [r w']. cbn in Hv. rewrite Hv.
    by rewrite truthy_js_Some.
Qed.

(** The null answer of [validateUser] reaches the caller as the one
    login failure. *)
Lemma login_null (dto : AuthenDTO) (w w' : World) :
  validateUser dto w = (Return None, w') →
  AuthenController.login dto w = (Throw InvalidCredentials, w').
Proof. intros Hv. unfold AuthenController.login. run. by rewrite Hv. Qed.

(** An unknown username gives the null answer. *)
Lemma validateUser_unknown (w : World) (u : string) (p : option string) :
  u ≠ "" →
  find_by "username" (Some (VStr u)) (accounts w) = None →
  (validateUser {| username := Some u; email := None; password := p |} w).1
  = Return None.
Proof.
  intros Hu Hnone. unfold validateUser. run.
  rewrite truthy_js_Some by done. cbn [andb js fmap option_fmap option_map truthy].
  rewrite Hnone. by rewrite bool_decide_eq_false_2 by (by intros [? ?]).
Qed.

(** A wrong password gives the null answer. *)
Lemma validateUser_wrong_password (w : World) (acct : Account)
    (u p h : string) :
  u ≠ "" →
  find_by "username" (Some (VStr u)) (accounts w) = Some acct →
  acct !! "password" = Some (VStr h) →
  bcrypt_compare p h = false →
  (validateUser {| username := Some u; email := None; password := Some p |}
     w).1 = Return None.
Proof.
  intros Hu Hfound Hpw Hcmp. unfold validateUser. run.
  rewrite truthy_js_Some by done. cbn [andb js fmap option_fmap option_map truthy].
  rewrite Hfound. rewrite bool_decide_eq_true_2 by eauto. cbn [negb andb].
  by rewrite Hpw, Hcmp.
Qed.

(** C2, as the code has it. For every login call in which both a
    non-empty username and a non-empty email are supplied,
    [validateUser] answers null without consulting the store or
    changing anything, and [login] raises the same
    "Wrong username/email or password" failure that an unknown account
    or a wrong password raises: there is no separate failure for the
    ambiguous request. *)
Theorem login_both_keys (w : World) (dto : AuthenDTO) :
  truthy (js (username dto)) = true →
  truthy (js (email dto)) = true →
  validateUser dto w = (Return None, w) ∧
  AuthenController.login dto w = (Throw InvalidCredentials, w).
Proof.
  intros Hu He.
  assert (validateUser dto w = (Return None, w)) as Hv.
  { unfold validateUser. by rewrite Hu, He. }
  split; [done|]. by apply login_null.
Qed.

(** C10. For every login call in which neither a username nor an email
    is supplied (absent or empty), [validateUser] answers null, the same
    answer as for an unknown account or a wrong password, the world is
    left as it was, so no lookup reached the store, and [login] raises
    "Wrong username/email or password". *)
Theorem login_no_key (w : World) (dto : AuthenDTO) :
  truthy (js (username dto)) = false →
  truthy (js (email dto)) = false →
  validateUser dto w = (Return None, w) ∧
  lookups (validateUser dto w).2 = lookups w ∧
  AuthenController.login dto w = (Throw InvalidCredentials, w).
Proof.
  intros Hu He.
  assert (validateUser dto w = (Return None, w)) as Hv.
  { unfold validateUser. rewrite Hu, He. cbn [andb]. run.
    by rewrite andb_false_r. }
  split_and!; [done|by rewrite Hv|by apply login_null].
Qed.

(** C8, as the code has it. For every register call with a non-empty
    username that names an existing account and a non-empty password,
    whatever that password is, [createUser] answers 409 and [register]
    raises "Username already exists", and no account is added; with an
    absent or empty password the missing-field check comes first and the
    answer is 400, "Username and password are required". *)
Theorem register_existing_username (w : World) (acct : Account)
    (u : string) (e p : option string) :
  u ≠ "" →
  find_by "username" (Some (VStr u)) (accounts w) = Some acct →
  let dto := {| username := Some u; email := e; password := p |} in
  (truthy (js p) = true →
   (createUser dto w).1 = Return (Some 409) ∧
   (AuthenController.register dto w).1 = Throw UsernameTaken ∧
   accounts (AuthenController.register dto w).2 = accounts w) ∧
  (truthy (js p) = false →
   createUser dto w = (Return (Some 400), w) ∧
   AuthenController.register dto w = (Throw MissingField, w)).
Proof.
  intros Hu Hfound dto. split; intros Hp.
  - assert (createUser dto w
            = (Return (Some 409), log_lookup (ByUsername u) w)) as Hc.
    { unfold createUser, dto. run. rewrite Hp, truthy_js_Some by done.
      cbn [negb orb]. rewrite Hfound.
      by rewrite bool_decide_eq_true_2 by eauto. }
    unfold AuthenController.register. run. by rewrite Hc.
  - assert (createUser dto w = (Return (Some 400), w)) as Hc.
    { unfold createUser, dto. run. rewrite Hp. by rewrite orb_true_r. }
    split; [done|]. unfold AuthenController.register. run. by rewrite Hc.
Qed.

(** C7. For every [resetPassword] call whose token fails verification,
    with whichever error the JWT service rejects it (bad signature or
    expiry), the service answers 409 and the controller raises
    "Token invalid/expired"; the answer does not depend on the error,
    and the world, stored accounts included, is left as it was. *)
Theorem reset_rejected_token (w : World) (tok newPassword : string)
    (e : Exn) :
  jwt_verify (clock w) tok = inr e →
  resetPassword tok newPassword w = (Return (Some 409), w) ∧
  AuthenController.resetPassword tok newPassword w = (Throw TokenRejected, w).
Proof.
  intros Hbad.
  assert (resetPassword tok newPassword w = (Return (Some 409), w)) as Hr.
  { unfold resetPassword. run. by rewrite Hbad. }
  split; [done|]. unfold AuthenController.resetPassword. run. by rewrite Hr.
Qed.

(** C5. For every account whose verified flag is false and whose
    stored hash matches the supplied password, [validateUser] with the
    email as the only lookup key answers null and [login] raises
    "Wrong username/email or password", while [validateUser] with the
    username as the only lookup key and the same password returns the
    session token, which [login] hands out. *)
Theorem unverified_email_login_fails (w : World) (acct : Account)
    (u e p h : string) :
  u ≠ "" → e ≠ "" →
  find_by "username" (Some (VStr u)) (accounts w) = Some acct →
  find_by "email" (Some (VStr e)) (accounts w) = Some acct →
  acct !! "verifyEmail" = Some (VBool false) →
  acct !! "password" = Some (VStr h) →
  bcrypt_compare p h = true →
  let by_email := {| username := None; email := Some e; password := Some p |} in
  let by_name := {| username := Some u; email := None; password := Some p |} in
  let tok := jwt_sign (clock w) (rest_user acct) None in
  (validateUser by_email w).1 = Return None ∧
  (AuthenController.login by_email w).1 = Throw InvalidCredentials ∧
  (validateUser by_name w).1 = Return (Some tok) ∧
  (tok ≠ "" →
   (AuthenController.login by_name w).1
     = Return {| message := "Login successfully"; token := Some tok |}).
Proof.
  intros Hu He Hname Hmail Hflag Hpw Hcmp by_email by_name tok.
  assert (validateUser by_email w
          = (Return None, log_lookup (ByEmail (Some (VStr e))) w)) as Hve.
  { unfold validateUser, by_email. run.
    rewrite (truthy_js_Some e) by done.
    cbn [js fmap option_fmap option_map truthy andb negb].
    rewrite bool_decide_eq_false_2 by (by intros [? ?]).
    cbn [negb andb]. rewrite Hmail. cbn [mbind option_bind].
    by rewrite Hflag. }
  assert ((validateUser by_name w).1 = Return (Some tok)) as Hvn.
  { unfold validateUser, by_name. run.
    rewrite truthy_js_Some by done.
    cbn [andb js fmap option_fmap option_map truthy].
    rewrite Hname. rewrite bool_decide_eq_true_2 by eauto. cbn [negb andb].
    by rewrite Hpw, Hcmp. }
  split_and!; [by rewrite Hve|by rewrite (login_null _ _ _ Hve)|done|].
  intros Htok. unfold AuthenController.login. run.
  destruct (validateUser by_name w) as [r w']. cbn in Hvn. rewrite Hvn.
  by rewrite truthy_js_Some.
Qed.

(** Every token [validateUser] returns is signed over the rest object of
    the account the request resolved to: the one found under the
    username when a username is supplied, else the verified one found
    under the email; and the supplied password matched its stored hash. *)
Lemma validateUser_token (w w' : World) (dto : AuthenDTO) (tok : string) :
  validateUser dto w = (Return (Some tok), w') →
  ∃ acct,
    acct ∈ accounts w ∧
    ((truthy (js (username dto)) = true ∧
      truthy (js (email dto)) = false ∧
      find_by "username" (Some (VStr (str (username dto)))) (accounts w)
        = Some acct) ∨
     (truthy (js (username dto)) = false ∧
      truthy (js (email dto)) = true ∧
      find_by "email" (js (email dto)) (accounts w) = Some acct ∧
      truthy (acct !! "verifyEmail") = true)) ∧
    (∃ p h, password dto = Some p ∧ acct !! "password" = Some (VStr h) ∧
            bcrypt_compare p h = true) ∧
    tok = jwt_sign (clock w) (rest_user acct) None.
Proof.
  unfold validateUser. destruct w as [t rows box qs].
  destruct (truthy (js (username dto))) eqn:Hu,
           (truthy (js (email dto))) eqn:He;
    cbn [andb]; run; cbn [negb andb]; [done| | |done].
  - destruct (find_by _ _ _) as [a|] eqn:Hfind; cbn; [|done].
    destruct (password dto) as [d|]; [|done].
    destruct (a !! "password") as [[h| | |]|] eqn:Hpw; try done.
    destruct (bcrypt_compare d h) eqn:Hcmp; [|done].
    intros [= <- <-]. exists a. split_and!; [|by left|by eauto|done].
    by apply (find_by_elem "username" (Some (VStr (str (username dto))))).
  - cbn. destruct (find_by _ _ _) as [a|] eqn:Hfind; cbn; [|done].
    destruct (truthy (a !! "verifyEmail")) eqn:Hflag; [|done].
    destruct (password dto) as [d|]; [|done].
    destruct (a !! "password") as [[h| | |]|] eqn:Hpw; try done.
    destruct (bcrypt_compare d h) eqn:Hcmp; [|done].
    intros [= <- <-]. exists a. split_and!; [|by right|by eauto|done].
    by apply (find_by_elem "email" (js (email dto))).
Qed.

(** C6. For every successful login, the token handed out is signed
    over the rest object of the account the request resolved to, the
    one stored under the supplied username or, without a username, the
    verified one stored under the supplied email, whose hash the
    supplied password matched: the claims hold no password hash, no
    verified flag, no creation or update timestamp (nor the profile
    relation), and every other attribute of that account as it is
    stored. *)
Theorem login_token_claims (w w' : World) (dto : AuthenDTO) (r : Reply) :
  AuthenController.login dto w = (Return r, w') →
  ∃ acct,
    acct ∈ accounts w ∧
    ((truthy (js (username dto)) = true ∧
      truthy (js (email dto)) = false ∧
      find_by "username" (Some (VStr (str (username dto)))) (accounts w)
        = Some acct) ∨
     (truthy (js (username dto)) = false ∧
      truthy (js (email dto)) = true ∧
      find_by "email" (js (email dto)) (accounts w) = Some acct ∧
      truthy (acct !! "verifyEmail") = true)) ∧
    (∃ p h, password dto = Some p ∧ acct !! "password" = Some (VStr h) ∧
            bcrypt_compare p h = true) ∧
    token r = Some (jwt_sign (clock w) (rest_user acct) None) ∧
    rest_user acct !! "password" = None ∧
    rest_user acct !! "verifyEmail" = None ∧
    rest_user acct !! "created_at" = None ∧
    rest_user acct !! "updated_at" = None ∧
    ∀ k, k ∉ ["password"; "profile"; "verifyEmail"; "created_at";
              "updated_at"] →
         rest_user acct !! k = acct !! k.
Proof.
  unfold AuthenController.login. run.
  destruct (validateUser dto w) as [[[tok|]|e] w1] eqn:Hv; [|done..].
  destruct (negb (truthy (js (Some tok)))); [done|].
  intros [= <- <-].
  destruct (validateUser_token _ _ _ _ Hv) as (acct & Hin & Hkey & Hpw & ->).
  exists acct. split_and!; [done|done|done|done|..|apply rest_user_public];
    apply rest_user_secret; repeat constructor.
Qed.

(** What [verify] does with a token that verifies and resolves. *)
Lemma verify_accepts (w : World) (tok : string) (decoded : Claims)
    (user : Account) :
  jwt_verify (clock w) tok = inl decoded →
  find_by "email" (decoded !! "email") (accounts w) = Some user →
  verify tok w
  = (Return (inr Verified),
     set_accounts
       (replace_row user
          (<[ "updated_at" := VNum (clock w) ]>
             (<[ "verifyEmail" := VBool true ]> user))
          (accounts w))
       (log_lookup (ByEmail (decoded !! "email")) w)).
Proof. intros Hok Hfound. unfold verify. run. by rewrite Hok, Hfound. Qed.

(** What [resetPassword] does with a token that verifies and resolves:
    the second argument goes to the store as it came in. *)
Lemma resetPassword_accepts (w : World) (tok newPassword : string)
    (decoded : Claims) (user : Account) :
  jwt_verify (clock w) tok = inl decoded →
  find_by "email" (decoded !! "email") (accounts w) = Some user →
  resetPassword tok newPassword w
  = (Return None,
     set_accounts
       (replace_row user
          (<[ "updated_at" := VNum (clock w) ]>
             (<[ "password" := VStr newPassword ]> user))
          (accounts w))
       (log_lookup (ByEmail (decoded !! "email")) w)).
Proof.
  intros Hok Hfound. unfold resetPassword. run. by rewrite Hok, Hfound.
Qed.

(** What [verifyEmail] answers for a verified account. *)
Lemma verifyEmail_verified (w : World) (e : string) (user : Account) :
  find_by "email" (Some (VStr e)) (accounts w) = Some user →
  truthy (user !! "verifyEmail") = true →
  verifyEmail e w = (Return (Some 409), log_lookup (ByEmail (Some (VStr e))) w).
Proof. intros Hfound Hflag. unfold verifyEmail. run. by rewrite Hfound, Hflag. Qed.

(** C9. For every token [T] that verifies with an email claim that
    resolves to an account, [verify] answers [{ message: 'Verified' }]
    and marks the account verified; a second [verify] of [T] in a later
    world [w2] with those accounts, where [T] still verifies, answers
    the same and leaves the account verified; after that, in a world
    [w3], [verifyEmail] for that email answers 409 and the controller
    raises "Email has been verified". *)
Theorem confirm_verification_twice (w w2 w3 : World) (T e : string)
    (acct : Account) (decoded decoded2 : Claims) :
  jwt_verify (clock w) T = inl decoded →
  decoded !! "email" = Some (VStr e) →
  find_by "email" (Some (VStr e)) (accounts w) = Some acct →
  accounts w2 = accounts (verify T w).2 →
  jwt_verify (clock w2) T = inl decoded2 →
  decoded2 !! "email" = Some (VStr e) →
  accounts w3 = accounts (verify T w2).2 →
  (verify T w).1 = Return (inr Verified) ∧
  (AuthenController.acceptVerifyEmail T w).1 = Return Verified ∧
  (∃ acct1, find_by "email" (Some (VStr e)) (accounts w2) = Some acct1 ∧
            acct1 !! "verifyEmail" = Some (VBool true)) ∧
  (verify T w2).1 = Return (inr Verified) ∧
  (AuthenController.acceptVerifyEmail T w2).1 = Return Verified ∧
  (∃ acct2, find_by "email" (Some (VStr e)) (accounts w3) = Some acct2 ∧
            acct2 !! "verifyEmail" = Some (VBool true)) ∧
  (verifyEmail e w3).1 = Return (Some 409) ∧
  (AuthenController.verifyEmail e w3).1 = Throw AlreadyVerified.
Proof.
  intros Hok He Hfound Hw2 Hok2 He2 Hw3.
  rewrite <-He in Hfound.
  pose proof (verify_accepts _ _ _ _ Hok Hfound) as Hv1.
  set (acct1 := <[ "updated_at" := VNum (clock w) ]>
                  (<[ "verifyEmail" := VBool true ]> acct)) in *.
  assert (find_by "email" (decoded2 !! "email") (accounts w2) = Some acct1)
    as Hfound2.
  { rewrite Hw2, Hv1, He2, <-He. cbn [snd accounts set_accounts log_lookup].
    apply find_by_replace; [done|]. subst acct1.
    by rewrite !lookup_insert_ne by done. }
  pose proof (verify_accepts _ _ _ _ Hok2 Hfound2) as Hv2.
  set (acct2 := <[ "updated_at" := VNum (clock w2) ]>
                  (<[ "verifyEmail" := VBool true ]> acct1)) in *.
  assert (find_by "email" (Some (VStr e)) (accounts w3) = Some acct2)
    as Hfound3.
  { rewrite Hw3, Hv2, <-He2. cbn [snd accounts set_accounts log_lookup].
    apply find_by_replace; [done|]. subst acct2.
    by rewrite !lookup_insert_ne by done. }
  assert (∀ T' w', verify T' w' = (Return (inr Verified), (verify T' w').2) →
                   (AuthenController.acceptVerifyEmail T' w').1 = Return Verified) as Hroute.
  { intros T' w' Hv. unfold AuthenController.acceptVerifyEmail. run. by rewrite Hv. }
  split_and!.
  - by rewrite Hv1.
  - apply Hroute. by rewrite Hv1.
  - exists acct1. split; [by rewrite <-He2|]. subst acct1.
    by rewrite lookup_insert_ne, lookup_insert_eq by done.
  - by rewrite Hv2.
  - apply Hroute. by rewrite Hv2.
  - exists acct2. split; [done|]. subst acct2.
    by rewrite lookup_insert_ne, lookup_insert_eq by done.
  - rewrite (verifyEmail_verified _ _ acct2); [done..|]. subst acct2.
    by rewrite lookup_insert_ne, lookup_insert_eq by done.
  - unfold AuthenController.verifyEmail. run.
    rewrite (verifyEmail_verified _ _ acct2); [done..|]. subst acct2.
    by rewrite lookup_insert_ne, lookup_insert_eq by done.
Qed.

(** C3, as the code has it. For every email of an unverified account,
    [forgotPassword] and [verifyEmail] mail the same token: the claim
    [{ email }] signed with the expiry [env.mailer.time]; the two mails
    differ in the link path and the wording only. Whenever that token
    verifies and its email resolves to an account, [verify] accepts it
    and [resetPassword] accepts it, so a token issued for one purpose
    serves the other. *)
Theorem reset_and_verification_token_coincide (w w' : World) (e pw : string)
    (acct acct' : Account) (decoded : Claims) :
  let T := jwt_sign (clock w) {[ "email" := VStr e ]} (Some env_mailer_time) in
  let reset := reset_mail e (env_dns ++ "/reset-password?token=" ++ T) in
  let check := verify_mail e (env_dns ++ "/verify?token=" ++ T) in
  find_by "email" (Some (VStr e)) (accounts w) = Some acct →
  truthy (acct !! "verifyEmail") = false →
  delivers reset = true →
  delivers check = true →
  jwt_verify (clock w') T = inl decoded →
  decoded !! "email" = Some (VStr e) →
  find_by "email" (Some (VStr e)) (accounts w') = Some acct' →
  (forgotPassword e w).1 = Return None ∧
  outbox (forgotPassword e w).2 = (outbox w ++ [reset])%list ∧
  (verifyEmail e w).1 = Return None ∧
  outbox (verifyEmail e w).2 = (outbox w ++ [check])%list ∧
  (verify T w').1 = Return (inr Verified) ∧
  (resetPassword T pw w').1 = Return None.
Proof.
  intros T reset check Hfound Hflag Hd1 Hd2 Hok He Hfound'.
  rewrite <-He in Hfound'.
  assert (forgotPassword e w
          = (Return None, push_mail reset (log_lookup (ByEmail (Some (VStr e))) w)))
    as Hf.
  { unfold forgotPassword. run. rewrite Hfound.
    rewrite bool_decide_eq_true_2 by eauto. cbn [negb obj1 from_option].
    run. fold T. fold reset. by rewrite Hd1. }
  assert (verifyEmail e w
          = (Return None, push_mail check (log_lookup (ByEmail (Some (VStr e))) w)))
    as Hr.
  { unfold verifyEmail. run. rewrite Hfound, Hflag.
    cbn [obj1 from_option]. run. fold T. fold check. by rewrite Hd2. }
  rewrite Hf, Hr, (verify_accepts _ _ _ _ Hok Hfound'),
    (resetPassword_accepts _ _ _ _ _ Hok Hfound').
  done.
Qed.

(** ** Further properties of the service and its routes *)

(** Every way out of [validateUser] leaves a world that differs from the
    start by the lookups sent to the store. *)
Lemma validateUser_world (dto : AuthenDTO) (w : World) :
  (validateUser dto w).2
  = {| clock := clock w; accounts := accounts w; outbox := outbox w;
       lookups := (lookups w ++ login_lookups dto)%list |}.
Proof.
  unfold validateUser, login_lookups. destruct w as [t rows box qs].
  destruct (truthy (js (username dto))), (truthy (js (email dto)));
    cbn [andb]; run; cbn [negb andb].
  - by rewrite app_nil_r.
  - destruct (find_by _ _ _) as [a|]; cbn.
    + destruct (password dto) as [d|]; [|done].
      destruct (a !! "password") as [[h| | |]|]; try done.
      by destruct (bcrypt_compare d h).
    + done.
  - cbn. destruct (find_by _ _ _) as [a|]; cbn; [|done].
    destruct (truthy (a !! "verifyEmail")); [|done].
    destruct (password dto) as [d|]; [|done].
    destruct (a !! "password") as [[h| | |]|]; try done.
    by destruct (bcrypt_compare d h).
  - cbn. by rewrite app_nil_r.
Qed.

(** X1. [validateUser] sends at most one lookup to the store: by username
    when a username is supplied, by email when only an email is; the
    email is never looked up after a username, whatever the username
    lookup found. *)
Theorem validateUser_lookups (dto : AuthenDTO) (w : World) :
  lookups (validateUser dto w).2 = (lookups w ++ login_lookups dto)%list ∧
  (length (login_lookups dto) ≤ 1)%nat ∧
  (truthy (js (username dto)) = true →
   ∀ k, ByEmail k ∉ login_lookups dto).
Proof.
  split_and!.
  - by rewrite validateUser_world.
  - unfold login_lookups. repeat case_match; cbn; lia.
  - intros Hu k. unfold login_lookups. rewrite Hu.
    destruct (truthy (js (email dto))); intros Hin.
    + by apply elem_of_nil in Hin.
    + by apply list_elem_of_singleton in Hin.
Qed.

(** X2. A reply from [login] always carries a token, and the token is
    not the empty string; it is the one [validateUser] returned. *)
Theorem login_reply_has_token (dto : AuthenDTO) (w w' : World) (r : Reply) :
  AuthenController.login dto w = (Return r, w') →
  message r = "Login successfully" ∧
  ∃ tok, token r = Some tok ∧ tok ≠ "" ∧
         validateUser dto w = (Return (Some tok), w').
Proof.
  unfold AuthenController.login. run.
  destruct (validateUser dto w) as [[[tok|]|e] w1]; [|done..].
  cbn [js fmap option_fmap option_map truthy].
  case_bool_decide as Htok; [|done]. cbn [negb].
  intros [= <- <-]. split; [done|]. by exists tok.
Qed.

(** X3. For every verified account whose stored hash matches the
    supplied password, [validateUser] with the email as the only lookup
    key returns the session token signed over the account's rest
    object. *)
Theorem verified_email_login (w : World) (acct : Account) (e p h : string) :
  e ≠ "" →
  find_by "email" (Some (VStr e)) (accounts w) = Some acct →
  truthy (acct !! "verifyEmail") = true →
  acct !! "password" = Some (VStr h) →
  bcrypt_compare p h = true →
  let dto := {| username := None; email := Some e; password := Some p |} in
  let tok := jwt_sign (clock w) (rest_user acct) None in
  (validateUser dto w).1 = Return (Some tok) ∧
  (tok ≠ "" →
   (AuthenController.login dto w).1
     = Return {| message := "Login successfully"; token := Some tok |}).
Proof.
  intros He Hmail Hflag Hpw Hcmp dto tok.
  assert ((validateUser dto w).1 = Return (Some tok)) as Hv.
  { unfold validateUser, dto. run.
    rewrite (truthy_js_Some e) by done.
    cbn [js fmap option_fmap option_map truthy andb negb].
    rewrite bool_decide_eq_false_2 by (by intros [? ?]).
    cbn [negb andb]. rewrite Hmail. cbn [mbind option_bind].
    by rewrite Hflag, Hpw, Hcmp. }
  split; [done|]. intros Htok. unfold AuthenController.login. run.
  destruct (validateUser dto w) as [r w']. cbn in Hv. rewrite Hv.
  by rewrite truthy_js_Some.
Qed.

(** X4. A login by username fails in one and the same way, with the same
    final world, whether the username is unknown or the password does
    not match the stored hash. *)
Theorem login_failure_uniform (w : World) (u p : string) :
  u ≠ "" →
  (find_by "username" (Some (VStr u)) (accounts w) = None ∨
   ∃ acct h, find_by "username" (Some (VStr u)) (accounts w) = Some acct ∧
             acct !! "password" = Some (VStr h) ∧
             bcrypt_compare p h = false) →
  AuthenController.login
    {| username := Some u; email := None; password := Some p |} w
  = (Throw InvalidCredentials, log_lookup (ByUsername u) w).
Proof.
  intros Hu Hcase. apply login_null.
  unfold validateUser. run. rewrite truthy_js_Some by done.
  cbn [andb js fmap option_fmap option_map truthy].
  destruct Hcase as [Hnone|(acct & h & Hfound & Hpw & Hcmp)].
  - rewrite Hnone. by rewrite bool_decide_eq_false_2 by (by intros [? ?]).
  - rewrite Hfound. rewrite bool_decide_eq_true_2 by eauto. cbn [negb andb].
    by rewrite Hpw, Hcmp.
Qed.

(** X5. In [validateUser] an empty string counts as an absent key: a
    request with an empty username is answered as the one without a
    username, and likewise for the email. *)
Theorem validateUser_empty_is_absent (u e p : option string) (w : World) :
  validateUser {| username := Some ""; email := e; password := p |} w
  = validateUser {| username := None; email := e; password := p |} w ∧
  validateUser {| username := u; email := Some ""; password := p |} w
  = validateUser {| username := u; email := None; password := p |} w.
Proof.
  split; unfold validateUser; run.
  - done.
  - cbn [js fmap option_fmap option_map truthy].
    rewrite bool_decide_eq_false_2 by (by intros ?).
    destruct (truthy (js u)); cbn [andb]; run;
      by rewrite ?andb_false_r.
Qed.

(** What [createUser] does, branch by branch. *)
Lemma createUser_run (dto : AuthenDTO) (w : World) :
  createUser dto w
  = if negb (truthy (js (username dto))) || negb (truthy (js (password dto)))
    then (Return (Some 400), w)
    else
      let u := str (username dto) in
      let w1 := log_lookup (ByUsername u) w in
      match find_by "username" (Some (VStr u)) (accounts w) with
      | Some _ => (Return (Some 409), w1)
      | None =>
          (Return None,
           set_accounts
             (accounts w
                ++ [stamp (clock w)
                      (userAccountUtil.create u
                         (bcrypt_hash (str (password dto)) 12))]) w1)
      end.
Proof.
  unfold createUser.
  destruct (negb (truthy (js (username dto)))
            || negb (truthy (js (password dto)))); [done|].
  run. destruct (find_by _ _ _) as [a|] eqn:Hfind.
  - by rewrite bool_decide_eq_true_2 by eauto.
  - rewrite bool_decide_eq_false_2 by (by intros [? ?]).
    by rewrite clashes_create.
Qed.

Lemma find_by_none_usernames (v : JsValue) (rows : list Account) :
  find_by "username" (Some v) rows = None → v ∉ usernames rows.
Proof.
  unfold find_by, usernames. intros Hnone Hin.
  apply list_elem_of_omap in Hin as (r & Hr & Hv).
  apply list_elem_of_In in Hr.
  apply (find_none _ _ Hnone) in Hr.
  unfold has_attr in Hr. by rewrite bool_decide_eq_true_2 in Hr.
Qed.

(** X6. A register request whose username or password is absent or
    empty is answered 400 before the store is consulted: the world is
    left as it was and the controller raises "Username and password are
    required". *)
Theorem createUser_missing_field (dto : AuthenDTO) (w : World) :
  truthy (js (username dto)) = false ∨ truthy (js (password dto)) = false →
  createUser dto w = (Return (Some 400), w) ∧
  AuthenController.register dto w = (Throw MissingField, w).
Proof.
  intros Hmiss.
  assert (createUser dto w = (Return (Some 400), w)) as Hc.
  { rewrite createUser_run.
    destruct Hmiss as [-> | ->]; [done|by rewrite orb_true_r]. }
  split; [done|]. unfold AuthenController.register. run. by rewrite Hc.
Qed.

(** X7. Whenever [createUser] returns, its answer tells what happened:
    400 only when the username or the password is absent or empty, with
    the world as it was; 409 only when both are present and the
    username is on file, with the table as it was; success only when
    both are present and the username was not on file, with exactly one
    account appended, carrying that username, the bcrypt hash of the
    password at 12 rounds and the verified flag false. There is no
    other answer, and no mail is sent. Errors of the store are not
    answers: they leave the method as exceptions. *)
Theorem createUser_outcomes (dto : AuthenDTO) (w w' : World)
    (status : option Z) :
  createUser dto w = (Return status, w') →
  let u := str (username dto) in
  let present := truthy (js (username dto)) && truthy (js (password dto)) in
  let new := stamp (clock w)
               (userAccountUtil.create u (bcrypt_hash (str (password dto)) 12)) in
  outbox w' = outbox w ∧
  ((status = Some 400 ∧ present = false ∧ w' = w) ∨
   (status = Some 409 ∧ present = true ∧ accounts w' = accounts w ∧
    is_Some (find_by "username" (Some (VStr u)) (accounts w))) ∨
   (status = None ∧ present = true ∧
    find_by "username" (Some (VStr u)) (accounts w) = None ∧
    accounts w' = (accounts w ++ [new])%list ∧
    new !! "username" = Some (VStr u) ∧
    new !! "password" = Some (VStr (bcrypt_hash (str (password dto)) 12)) ∧
    new !! "verifyEmail" = Some (VBool false) ∧
    new !! "email" = None)).
Proof.
  intros Hrun u present new. rewrite createUser_run in Hrun. subst present.
  destruct (truthy (js (username dto))), (truthy (js (password dto)));
    cbn [negb orb andb] in *; try (injection Hrun as <- <-; by eauto).
  cbn zeta in Hrun. fold u in Hrun.
  destruct (find_by _ _ _) as [a|] eqn:Hfind; injection Hrun as <- <-.
  - split; [done|]. right; left. by eauto.
  - split; [done|]. right; right. by split_and!.
Qed.

(** X8. [createUser] keeps usernames unique: when no two accounts on
    file share a username, none do afterwards. *)
Theorem createUser_keeps_usernames_unique (dto : AuthenDTO) (w : World) :
  NoDup (usernames (accounts w)) →
  NoDup (usernames (accounts (createUser dto w).2)).
Proof.
  intros Hnodup. rewrite createUser_run.
  destruct (negb (truthy (js (username dto)))
            || negb (truthy (js (password dto)))); [done|].
  cbn zeta. destruct (find_by _ _ _) as [a|] eqn:Hfind; [done|].
  cbn [snd accounts set_accounts log_lookup].
  unfold usernames. rewrite omap_app. apply NoDup_app. split_and!.
  - done.
  - intros v Hv Hnew. apply list_elem_of_singleton in Hnew. subst v.
    by apply find_by_none_usernames in Hfind.
  - apply NoDup_singleton.
Qed.

(** X9. Registering the same username again is refused: after a
    successful [createUser], a second one for that username, with any
    non-empty password, answers 409 in any later world holding those
    accounts, and adds nothing. *)
Theorem register_twice (w w2 : World) (u p p2 : string)
    (e e2 : option string) :
  u ≠ "" → p ≠ "" → p2 ≠ "" →
  find_by "username" (Some (VStr u)) (accounts w) = None →
  let first := {| username := Some u; email := e; password := Some p |} in
  let again := {| username := Some u; email := e2; password := Some p2 |} in
  accounts w2 = accounts (createUser first w).2 →
  (createUser first w).1 = Return None ∧
  (createUser again w2).1 = Return (Some 409) ∧
  (AuthenController.register again w2).1 = Throw UsernameTaken ∧
  accounts (createUser again w2).2 = accounts w2.
Proof.
  intros Hu Hp Hp2 Hfree first again Hw2.
  assert (createUser first w
          = (Return None,
             set_accounts
               (accounts w
                  ++ [stamp (clock w)
                        (userAccountUtil.create u (bcrypt_hash p 12))])
               (log_lookup (ByUsername u) w))) as Hfirst.
  { rewrite createUser_run. cbn [username password first].
    rewrite !truthy_js_Some by done. cbn [negb orb str from_option id].
    cbn zeta. by rewrite Hfree. }
  rewrite Hfirst in Hw2. cbn [snd accounts set_accounts log_lookup] in Hw2.
  assert (createUser again w2
          = (Return (Some 409), log_lookup (ByUsername u) w2)) as Hagain.
  { rewrite createUser_run. cbn [username password again].
    rewrite !truthy_js_Some by done. cbn [negb orb str from_option id].
    cbn zeta. rewrite Hw2.
    rewrite (find_by_app _ _ _ _ Hfree); [done|].
    by apply bool_decide_eq_true. }
  split_and!.
  - by rewrite Hfirst.
  - by rewrite Hagain.
  - unfold AuthenController.register. run. by rewrite Hagain.
  - by rewrite Hagain.
Qed.

(** Regrouping the pieces of a mail body. *)
Lemma body_regroup (pre quote rest : string) :
  pre ++ quote ++ rest = (pre ++ quote) ++ rest.
Proof.
  induction pre as [|c pre IH]; [reflexivity|].
  change (String c (pre ++ quote ++ rest) = String c ((pre ++ quote) ++ rest)).
  by rewrite IH.
Qed.

(** What [forgotPassword] does, branch by branch. *)
Lemma forgotPassword_run (e : string) (w : World) :
  forgotPassword e w
  = let w1 := log_lookup (ByEmail (Some (VStr e))) w in
    match find_by "email" (Some (VStr e)) (accounts w) with
    | None => (Return (Some 400), w1)
    | Some _ =>
        let T := jwt_sign (clock w) {[ "email" := VStr e ]}
                   (Some env_mailer_time) in
        let m := reset_mail e (env_dns ++ "/reset-password?token=" ++ T) in
        if delivers m then (Return None, push_mail m w1)
        else (Throw MailerError, w1)
    end.
Proof.
  unfold forgotPassword. run. destruct (find_by _ _ _) as [a|].
  - rewrite bool_decide_eq_true_2 by eauto. cbn [negb obj1 from_option].
    run. cbn zeta. by destruct (delivers _).
  - by rewrite bool_decide_eq_false_2 by (by intros [? ?]).
Qed.

(** What [verifyEmail] does, branch by branch. *)
Lemma verifyEmail_run (e : string) (w : World) :
  verifyEmail e w
  = let w1 := log_lookup (ByEmail (Some (VStr e))) w in
    match find_by "email" (Some (VStr e)) (accounts w) with
    | None => (Return (Some 400), w1)
    | Some user =>
        if truthy (user !! "verifyEmail") then (Return (Some 409), w1) else
        let T := jwt_sign (clock w) {[ "email" := VStr e ]}
                   (Some env_mailer_time) in
        let m := verify_mail e (env_dns ++ "/verify?token=" ++ T) in
        if delivers m then (Return None, push_mail m w1)
        else (Throw MailerError, w1)
    end.
Proof.
  unfold verifyEmail. run. destruct (find_by _ _ _) as [a|]; [|done].
  destruct (truthy (a !! "verifyEmail")); [done|].
  cbn [obj1 from_option]. run. cbn zeta. by destruct (delivers _).
Qed.

(** What [resetPassword] does, branch by branch. *)
Lemma resetPassword_run (tok newPassword : string) (w : World) :
  resetPassword tok newPassword w
  = match jwt_verify (clock w) tok with
    | inr _ => (Return (Some 409), w)
    | inl decoded =>
        let w1 := log_lookup (ByEmail (decoded !! "email")) w in
        match find_by "email" (decoded !! "email") (accounts w) with
        | None => (Return (Some 400), w1)
        | Some user =>
            (Return None,
             set_accounts
               (replace_row user
                  (<[ "updated_at" := VNum (clock w) ]>
                     (<[ "password" := VStr newPassword ]> user))
                  (accounts w)) w1)
        end
    end.
Proof.
  unfold resetPassword. run. destruct (jwt_verify _ _) as [decoded|e]; [|done].
  run. by destruct (find_by _ _ _).
Qed.

(** What [verify] does, branch by branch. *)
Lemma verify_run (tok : string) (w : World) :
  verify tok w
  = match jwt_verify (clock w) tok with
    | inr _ => (Return (inl 400), w)
    | inl decoded =>
        let w1 := log_lookup (ByEmail (decoded !! "email")) w in
        match find_by "email" (decoded !! "email") (accounts w) with
        | None => (Return (inl 409), w1)
        | Some user =>
            (Return (inr Verified),
             set_accounts
               (replace_row user
                  (<[ "updated_at" := VNum (clock w) ]>
                     (<[ "verifyEmail" := VBool true ]> user))
                  (accounts w)) w1)
        end
    end.
Proof.
  unfold verify. run. destruct (jwt_verify _ _) as [decoded|e]; [|done].
  run. by destruct (find_by _ _ _).
Qed.

(** X10. [forgotPassword] for an email with no account answers 400 and
    the controller raises "Account not exist"; no token is signed into
    a mail and nothing is sent. *)
Theorem forgotPassword_unknown (e : string) (w : World) :
  find_by "email" (Some (VStr e)) (accounts w) = None →
  forgotPassword e w
    = (Return (Some 400), log_lookup (ByEmail (Some (VStr e))) w) ∧
  AuthenController.forgotPassword e w
    = (Throw (BadRequestException "Account not exist"),
       log_lookup (ByEmail (Some (VStr e))) w) ∧
  outbox (forgotPassword e w).2 = outbox w.
Proof.
  intros Hnone.
  assert (forgotPassword e w
          = (Return (Some 400), log_lookup (ByEmail (Some (VStr e))) w))
    as Hf by (by rewrite forgotPassword_run, Hnone).
  split_and!; [done| |by rewrite Hf].
  unfold AuthenController.forgotPassword. run. by rewrite Hf.
Qed.

(** X11. [forgotPassword] for an email on file, verified or not, sends
    exactly one mail, addressed to that email with the subject "Reset
    password" and a link [env.dns/reset-password?token=T] in its body
    where [T] signs [{ email }] with the configured expiry; it answers
    without payload, the controller replies "Reset link sent", and no
    account changes. *)
Theorem forgotPassword_sends_link (e : string) (w : World) (acct : Account) :
  let T := jwt_sign (clock w) {[ "email" := VStr e ]} (Some env_mailer_time) in
  let link := env_dns ++ "/reset-password?token=" ++ T in
  let m := reset_mail e link in
  find_by "email" (Some (VStr e)) (accounts w) = Some acct →
  delivers m = true →
  (forgotPassword e w).1 = Return None ∧
  (AuthenController.forgotPassword e w).1
    = Return {| message := "Reset link sent"; token := None |} ∧
  outbox (forgotPassword e w).2 = (outbox w ++ [m])%list ∧
  to m = Some (VStr e) ∧ subject m = "Reset password" ∧
  (∃ before after, html m = before ++ link ++ after) ∧
  accounts (forgotPassword e w).2 = accounts w.
Proof.
  intros T link m Hfound Hd.
  assert (forgotPassword e w
          = (Return None, push_mail m (log_lookup (ByEmail (Some (VStr e))) w)))
    as Hf.
  { rewrite forgotPassword_run, Hfound. cbn zeta. fold T. fold link. fold m.
    by rewrite Hd. }
  split_and!; [by rewrite Hf| |by rewrite Hf|done|done| |by rewrite Hf].
  - unfold AuthenController.forgotPassword. run. by rewrite Hf.
  - unfold m, reset_mail. cbn [html].
    match goal with
    | |- ∃ _ _, ?s1 ++ dq ++ link ++ ?rest = _ => exists (s1 ++ dq), rest
    end.
    apply body_regroup.
Qed.

(** X12. When the transport does not deliver, [forgotPassword] and
    [verifyEmail] do not turn the failure into a status: the error leaves
    the service and the controller as it is, and the outbox and the
    accounts stay as they were. *)
Theorem mail_failure_propagates (e : string) (w : World) (acct : Account) :
  let T := jwt_sign (clock w) {[ "email" := VStr e ]} (Some env_mailer_time) in
  find_by "email" (Some (VStr e)) (accounts w) = Some acct →
  truthy (acct !! "verifyEmail") = false →
  delivers (reset_mail e (env_dns ++ "/reset-password?token=" ++ T)) = false →
  delivers (verify_mail e (env_dns ++ "/verify?token=" ++ T)) = false →
  let w1 := log_lookup (ByEmail (Some (VStr e))) w in
  forgotPassword e w = (Throw MailerError, w1) ∧
  AuthenController.forgotPassword e w = (Throw MailerError, w1) ∧
  verifyEmail e w = (Throw MailerError, w1) ∧
  AuthenController.verifyEmail e w = (Throw MailerError, w1).
Proof.
  intros T Hfound Hflag Hd1 Hd2 w1.
  assert (forgotPassword e w = (Throw MailerError, w1)) as Hf.
  { rewrite forgotPassword_run, Hfound. cbn zeta. fold T. by rewrite Hd1. }
  assert (verifyEmail e w = (Throw MailerError, w1)) as Hv.
  { rewrite verifyEmail_run, Hfound, Hflag. cbn zeta. fold T. by rewrite Hd2. }
  split_and!; [done| |done|].
  - unfold AuthenController.forgotPassword. run. by rewrite Hf.
  - unfold AuthenController.verifyEmail. run. by rewrite Hv.
Qed.

(** X13. Mail goes only to addresses on file: a mail found in the
    outbox after [forgotPassword] for an email was there before, or is
    addressed to that email and an account with that email exists; after
    [verifyEmail], moreover, that account is not yet verified. *)
Theorem mail_only_to_accounts_on_file (e : string) (w : World) (m : Mail) :
  (m ∈ outbox (forgotPassword e w).2 →
   m ∈ outbox w ∨
   (to m = Some (VStr e) ∧
    ∃ acct, find_by "email" (Some (VStr e)) (accounts w) = Some acct)) ∧
  (m ∈ outbox (verifyEmail e w).2 →
   m ∈ outbox w ∨
   (to m = Some (VStr e) ∧
    ∃ acct, find_by "email" (Some (VStr e)) (accounts w) = Some acct ∧
            truthy (acct !! "verifyEmail") = false)).
Proof.
  rewrite forgotPassword_run, verifyEmail_run. cbn zeta.
  assert (∀ b (x : Mail) w1,
            m ∈ outbox (if (b : bool) then (Return (@None Z), push_mail x w1)
                        else (Throw MailerError, w1)).2 →
            m ∈ outbox w1 ∨ m = x) as Hsent.
  { intros [] x w1; cbn; [|by left].
    intros Hin. apply elem_of_app in Hin as [?|Hin]; [by left|].
    apply list_elem_of_singleton in Hin. by right. }
  destruct (find_by _ _ _) as [acct|]; [|by split; left].
  split; intros Hin.
  - apply Hsent in Hin as [? | ->]; [by left|]. right. by eauto.
  - destruct (truthy (acct !! "verifyEmail")) eqn:Hflag; [by left|].
    apply Hsent in Hin as [? | ->]; [by left|]. right. by eauto.
Qed.

(** X14. [validateUser], [forgotPassword] and [verifyEmail] never write
    to the account table, whatever they are given and however they
    end. *)
Theorem accounts_untouched (dto : AuthenDTO) (e : string) (w : World) :
  accounts (validateUser dto w).2 = accounts w ∧
  accounts (AuthenController.login dto w).2 = accounts w ∧
  accounts (forgotPassword e w).2 = accounts w ∧
  accounts (verifyEmail e w).2 = accounts w.
Proof.
  split_and!.
  - by rewrite validateUser_world.
  - unfold AuthenController.login. run.
    pose proof (validateUser_world dto w) as Hw.
    destruct (validateUser dto w) as [[o|x] w1]; cbn in Hw; subst w1; [|done].
    by destruct (negb _).
  - rewrite forgotPassword_run. cbn zeta.
    destruct (find_by _ _ _); [|done]. by destruct (delivers _).
  - rewrite verifyEmail_run. cbn zeta.
    destruct (find_by _ _ _) as [a|]; [|done].
    destruct (truthy _); [done|]. by destruct (delivers _).
Qed.

(** X15. [createUser], [validateUser], [resetPassword] and [verify]
    never send mail. *)
Theorem no_mail_sent (dto : AuthenDTO) (tok pw : string) (w : World) :
  outbox (createUser dto w).2 = outbox w ∧
  outbox (validateUser dto w).2 = outbox w ∧
  outbox (resetPassword tok pw w).2 = outbox w ∧
  outbox (verify tok w).2 = outbox w.
Proof.
  split_and!.
  - rewrite createUser_run. destruct (_ || _); [done|]. cbn zeta.
    by destruct (find_by _ _ _).
  - by rewrite validateUser_world.
  - rewrite resetPassword_run. destruct (jwt_verify _ _); [|done].
    cbn zeta. by destruct (find_by _ _ _).
  - rewrite verify_run. destruct (jwt_verify _ _); [|done].
    cbn zeta. by destruct (find_by _ _ _).
Qed.

(** X16. A token that verifies but whose email claim resolves to no
    account, for instance because it carries no email claim at all, is
    answered 400 by [resetPassword] and 409 by [verify]; the
    controllers raise "Wrong token", as a bad request on the reset route
    and as a conflict on the verify route, and no account changes. *)
Theorem token_for_unknown_account (w : World) (tok pw : string)
    (decoded : Claims) :
  jwt_verify (clock w) tok = inl decoded →
  find_by "email" (decoded !! "email") (accounts w) = None →
  let w1 := log_lookup (ByEmail (decoded !! "email")) w in
  resetPassword tok pw w = (Return (Some 400), w1) ∧
  AuthenController.resetPassword tok pw w
    = (Throw (BadRequestException "Wrong token"), w1) ∧
  verify tok w = (Return (inl 409), w1) ∧
  AuthenController.acceptVerifyEmail tok w
    = (Throw (ConflictException "Wrong token"), w1) ∧
  accounts w1 = accounts w.
Proof.
  intros Hok Hnone w1.
  assert (resetPassword tok pw w = (Return (Some 400), w1)) as Hr
    by (by rewrite resetPassword_run, Hok, Hnone).
  assert (verify tok w = (Return (inl 409), w1)) as Hv
    by (by rewrite verify_run, Hok, Hnone).
  split_and!; [done| |done| |done].
  - unfold AuthenController.resetPassword. run. by rewrite Hr.
  - unfold AuthenController.acceptVerifyEmail. run. by rewrite Hv.
Qed.

(** X17. A token that fails verification is answered 400 by [verify],
    with the world as it was, and the verify route raises
    "Token invalid/expired" as a bad request, where the reset route
    raises the same message as a conflict. *)
Theorem verify_rejected_token (w : World) (tok pw : string) (e : Exn) :
  jwt_verify (clock w) tok = inr e →
  verify tok w = (Return (inl 400), w) ∧
  AuthenController.acceptVerifyEmail tok w
    = (Throw (BadRequestException "Token invalid/expired"), w) ∧
  AuthenController.resetPassword tok pw w
    = (Throw (ConflictException "Token invalid/expired"), w).
Proof.
  intros Hbad.
  assert (verify tok w = (Return (inl 400), w)) as Hv
    by (by rewrite verify_run, Hbad).
  assert (resetPassword tok pw w = (Return (Some 409), w)) as Hr
    by (by rewrite resetPassword_run, Hbad).
  split_and!; [done| |].
  - unfold AuthenController.acceptVerifyEmail. run. by rewrite Hv.
  - unfold AuthenController.resetPassword. run. by rewrite Hr.
Qed.

(** X18. [resetPassword] and [verify] never raise: whatever the token,
    each answers one of its three results, and each route ends in its
    reply or in one of its two exceptions. *)
Theorem token_routes_never_raise (tok pw : string) (w : World) :
  (resetPassword tok pw w).1
    ∈ [Return None; Return (Some 400); Return (Some 409)] ∧
  (verify tok w).1
    ∈ [Return (inr Verified); Return (inl 400); Return (inl 409)] ∧
  (AuthenController.resetPassword tok pw w).1
    ∈ [Return {| message := "New password set"; token := None |};
       Throw (BadRequestException "Wrong token");
       Throw (ConflictException "Token invalid/expired")] ∧
  (AuthenController.acceptVerifyEmail tok w).1
    ∈ [Return Verified;
       Throw (BadRequestException "Token invalid/expired");
       Throw (ConflictException "Wrong token")].
Proof.
  unfold AuthenController.resetPassword, AuthenController.acceptVerifyEmail.
  run. rewrite resetPassword_run, verify_run.
  destruct (jwt_verify _ _) as [decoded|e]; cbn zeta.
  - destruct (find_by _ _ _); cbn; set_solver.
  - cbn. set_solver.
Qed.

(** X19. A session token opens the token routes too: the token
    [validateUser] signs for an account that has an email carries that
    email among its claims, so when it verifies with the email it was
    signed with and an account has that email, [resetPassword] sets a
    new password with it and [verify] confirms the address with it. *)
Theorem session_token_resets_password (w w' : World) (acct acct' : Account)
    (u e p h pw : string) (decoded : Claims) :
  let tok := jwt_sign (clock w) (rest_user acct) None in
  u ≠ "" →
  find_by "username" (Some (VStr u)) (accounts w) = Some acct →
  acct !! "password" = Some (VStr h) →
  bcrypt_compare p h = true →
  acct !! "email" = Some (VStr e) →
  jwt_verify (clock w') tok = inl decoded →
  decoded !! "email" = rest_user acct !! "email" →
  find_by "email" (Some (VStr e)) (accounts w') = Some acct' →
  (validateUser {| username := Some u; email := None; password := Some p |}
     w).1 = Return (Some tok) ∧
  rest_user acct !! "email" = Some (VStr e) ∧
  (resetPassword tok pw w').1 = Return None ∧
  (verify tok w').1 = Return (inr Verified).
Proof.
  intros tok Hu Hfound Hpw Hcmp Hmail Hok Hclaim Hfound'.
  assert (rest_user acct !! "email" = Some (VStr e)) as Hrest.
  { rewrite rest_user_public; [done|].
    rewrite !not_elem_of_cons. split_and!; [done..|]. apply not_elem_of_nil. }
  rewrite Hrest in Hclaim. rewrite <-Hclaim in Hfound'.
  split_and!; [|done|..].
  - unfold validateUser. run. rewrite truthy_js_Some by done.
    cbn [andb js fmap option_fmap option_map truthy].
    rewrite Hfound. rewrite bool_decide_eq_true_2 by eauto. cbn [negb andb].
    by rewrite Hpw, Hcmp.
  - by rewrite resetPassword_run, Hok, Hfound'.
  - by rewrite verify_run, Hok, Hfound'.
Qed.

(** X20. Confirming the address opens the email login: for an
    unverified account whose stored hash matches the password,
    [validateUser] by email answers null before [verify] accepted a
    token for that email, and afterwards, in a later world holding the
    resulting accounts, returns the session token of the account, now
    marked verified. *)
Theorem confirm_unlocks_email_login (w w2 : World) (acct : Account)
    (T e p h : string) (decoded : Claims) :
  e ≠ "" →
  find_by "email" (Some (VStr e)) (accounts w) = Some acct →
  truthy (acct !! "verifyEmail") = false →
  acct !! "password" = Some (VStr h) →
  bcrypt_compare p h = true →
  jwt_verify (clock w) T = inl decoded →
  decoded !! "email" = Some (VStr e) →
  accounts w2 = accounts (verify T w).2 →
  let dto := {| username := None; email := Some e; password := Some p |} in
  let acct1 := <[ "updated_at" := VNum (clock w) ]>
                 (<[ "verifyEmail" := VBool true ]> acct) in
  (validateUser dto w).1 = Return None ∧
  (validateUser dto w2).1
    = Return (Some (jwt_sign (clock w2) (rest_user acct1) None)).
Proof.
  intros He Hfound Hflag Hpw Hcmp Hok Hclaim Hw2 dto acct1.
  assert (∀ w0 a,
            find_by "email" (Some (VStr e)) (accounts w0) = Some a →
            (validateUser dto w0).1
            = if truthy (a !! "verifyEmail")
              then match a !! "password" with
                   | Some (VStr h0) =>
                       if bcrypt_compare p h0
                       then Return (Some (jwt_sign (clock w0) (rest_user a) None))
                       else Return None
                   | _ => Throw BcryptError
                   end
              else Return None) as Hlogin.
  { intros w0 a Ha. unfold validateUser, dto. run.
    rewrite (truthy_js_Some e) by done.
    cbn [js fmap option_fmap option_map truthy andb negb].
    rewrite bool_decide_eq_false_2 by (by intros [? ?]).
    cbn [negb andb]. rewrite Ha. cbn [mbind option_bind].
    destruct (truthy (a !! "verifyEmail")); [|done].
    destruct (a !! "password") as [[h0| | |]|]; try done.
    by destruct (bcrypt_compare p h0). }
  split.
  - by rewrite (Hlogin w acct Hfound), Hflag.
  - rewrite <-Hclaim in Hfound.
    rewrite (verify_accepts _ _ _ _ Hok Hfound) in Hw2.
    cbn [snd accounts set_accounts log_lookup] in Hw2.
    rewrite (Hlogin w2 acct1).
    + subst acct1. rewrite lookup_insert_ne, lookup_insert_eq by done.
      cbn [truthy]. rewrite !lookup_insert_ne by done. by rewrite Hpw, Hcmp.
    + rewrite Hw2, <-Hclaim. apply find_by_replace; [done|].
      subst acct1. by rewrite !lookup_insert_ne by done.
Qed.

End Properties.

(** ** Runs on concrete requests *)

(** C1 on a run: "alice" registers on the empty store and logs in later. *)
Lemma register_then_login_run :
  let dto := {| username := Some "alice"; email := None;
                password := Some "Secret1!" |} in
  let w1 := (@createUser fake_bcrypt dto world0).2 in
  (@AuthenController.register fake_bcrypt dto world0).1
    = Return {| message := "User created successfully"; token := None |} ∧
  (@AuthenController.login fake_bcrypt fake_jwt dto (at_time 2000 w1)).1
    = Return {| message := "Login successfully"; token := Some "user:alice" |}.
Proof.
  intros dto w1.
  destruct (@register_then_login fake_bcrypt fake_jwt world0 (at_time 2000 w1)
              "alice" "Secret1!")
    as (_ & Hreg & _ & _ & _ & _ & _ & Hlogin);
    [done|done|reflexivity|reflexivity|reflexivity|].
  split; [exact Hreg|]. apply Hlogin. done.
Defined.

(** C2 refuted on a run: a login naming both keys, a login for an unknown
    username and a login with a wrong password end in one and the same
    failure. *)
Lemma login_both_keys_same_failure :
  let both := {| username := Some "alice"; email := Some "alice@x.com";
                 password := Some "Secret1!" |} in
  let unknown := {| username := Some "mallory"; email := None;
                    password := Some "Secret1!" |} in
  let wrong := {| username := Some "alice"; email := None;
                  password := Some "guess" |} in
  (@validateUser fake_bcrypt fake_jwt both world_alice).1 = Return None ∧
  (@validateUser fake_bcrypt fake_jwt unknown world_alice).1 = Return None ∧
  (@validateUser fake_bcrypt fake_jwt wrong world_alice).1 = Return None ∧
  (@AuthenController.login fake_bcrypt fake_jwt both world_alice).1
    = Throw (BadRequestException "Wrong username/email or password") ∧
  (@AuthenController.login fake_bcrypt fake_jwt both world_alice).1
    = (@AuthenController.login fake_bcrypt fake_jwt unknown world_alice).1 ∧
  (@AuthenController.login fake_bcrypt fake_jwt both world_alice).1
    = (@AuthenController.login fake_bcrypt fake_jwt wrong world_alice).1.
Proof. by vm_compute. Qed.

(** C2 as amended, on a run: the login naming both keys fails with the
    one login failure and leaves the world as it was. *)
Lemma login_both_keys_run :
  let both := {| username := Some "alice"; email := Some "alice@x.com";
                 password := Some "Secret1!" |} in
  @AuthenController.login fake_bcrypt fake_jwt both world_alice
  = (Throw InvalidCredentials, world_alice).
Proof.
  intros both.
  apply (@login_both_keys fake_bcrypt fake_jwt world_alice both);
    reflexivity.
Defined.

(** C3 refuted on a run: the token [forgotPassword] mails for alice's
    address is the token [verifyEmail] mails, and [verify] accepts it and
    marks the account verified. *)
Lemma reset_token_confirms_email :
  let w1 := (@forgotPassword fake_jwt fake_env fake_transport "alice@x.com"
               world_alice).2 in
  let w2 := (@verifyEmail fake_jwt fake_env fake_transport "alice@x.com"
               world_alice).2 in
  let T := "mail:alice@x.com" in
  outbox w1
    = [@reset_mail fake_env "alice@x.com"
         ("http://localhost:3000/reset-password?token=" ++ T)] ∧
  outbox w2
    = [@verify_mail fake_env "alice@x.com"
         ("http://localhost:3000/verify?token=" ++ T)] ∧
  (@verify fake_jwt T w1).1 = Return (inr Verified) ∧
  (@AuthenController.acceptVerifyEmail fake_jwt T w1).1 = Return Verified ∧
  accounts (@verify fake_jwt T w1).2
    = [<[ "updated_at" := VNum 1000 ]> (<[ "verifyEmail" := VBool true ]> alice)] ∧
  (@resetPassword fake_jwt T "Other2!" w2).1 = Return None.
Proof. by vm_compute. Qed.

(** C3 as amended, on a run: the token mailed for alice, presented
    later, is taken by [verify] and by [resetPassword] alike. *)
Lemma reset_and_verification_token_run :
  let T := "mail:alice@x.com" in
  (@verify fake_jwt T (at_time 1200 world_alice)).1 = Return (inr Verified) ∧
  (@resetPassword fake_jwt T "Other2!" (at_time 1200 world_alice)).1
    = Return None.
Proof.
  intros T.
  destruct (@reset_and_verification_token_coincide fake_jwt fake_env
              fake_transport world_alice (at_time 1200 world_alice)
              "alice@x.com" "Other2!" alice alice
              {[ "email" := VStr "alice@x.com" ]})
    as (_ & _ & _ & _ & Hv & Hr);
    [reflexivity|reflexivity|reflexivity|reflexivity|reflexivity|reflexivity
    |reflexivity|].
  split; [exact Hv|exact Hr].
Defined.

(** C4 on a run: alice resets her password with a token that verifies.
    The answer is success without payload, and the stored password
    attribute is the new password as typed, not [bcrypt_hash] of it; a
    login with the new password is then refused. *)
Lemma reset_password_stores_plaintext :
  let r := @resetPassword fake_jwt "mail:alice@x.com" "NewSecret2!"
             world_alice in
  let dto := {| username := Some "alice"; email := None;
                password := Some "NewSecret2!" |} in
  r.1 = Return None ∧
  accounts r.2
    = [<[ "updated_at" := VNum 1000 ]>
         (<[ "password" := VStr "NewSecret2!" ]> alice)] ∧
  (find_by "email" (Some (VStr "alice@x.com")) (accounts r.2)
     ≫= (.!! "password")) = Some (VStr "NewSecret2!") ∧
  (find_by "email" (Some (VStr "alice@x.com")) (accounts r.2)
     ≫= (.!! "password"))
    ≠ Some (VStr (@bcrypt_hash fake_bcrypt "NewSecret2!" 12)) ∧
  (@validateUser fake_bcrypt fake_jwt dto r.2).1 = Return None.
Proof. by vm_compute. Qed.

(** C5 on a run: alice, unverified, logs in by username but not by email. *)
Lemma unverified_email_login_run :
  (@AuthenController.login fake_bcrypt fake_jwt
     {| username := None; email := Some "alice@x.com";
        password := Some "Secret1!" |} world_alice).1
    = Throw InvalidCredentials ∧
  (@AuthenController.login fake_bcrypt fake_jwt
     {| username := Some "alice"; email := None;
        password := Some "Secret1!" |} world_alice).1
    = Return {| message := "Login successfully";
                token := Some "mail:alice@x.com" |}.
Proof.
  destruct (@unverified_email_login_fails fake_bcrypt fake_jwt world_alice
              alice "alice" "alice@x.com" "Secret1!" "$2b$Secret1!")
    as (_ & Hmail & _ & Hname);
    [done|done|reflexivity|reflexivity|reflexivity|reflexivity|reflexivity|].
  split; [exact Hmail|]. apply Hname. done.
Defined.

(** C6 on a run: the token of alice's login is signed over the account
    stored under "alice", that is over her username and email alone. *)
Lemma login_token_claims_run :
  ∃ acct,
    acct ∈ accounts world_alice ∧
    find_by "username" (Some (VStr "alice")) (accounts world_alice)
      = Some acct ∧
    rest_user acct
      = {[ "username" := VStr "alice"; "email" := VStr "alice@x.com" ]} ∧
    rest_user acct !! "password" = None ∧
    rest_user acct !! "verifyEmail" = None ∧
    rest_user acct !! "created_at" = None ∧
    rest_user acct !! "updated_at" = None.
Proof.
  destruct (@login_token_claims fake_bcrypt fake_jwt world_alice
              (log_lookup (ByUsername "alice") world_alice)
              {| username := Some "alice"; email := None;
                 password := Some "Secret1!" |}
              {| message := "Login successfully";
                 token := Some "mail:alice@x.com" |} eq_refl)
    as (acct & Hin & Hkey & _ & _ & Hpw & Hflag & Hc & Hu & _).
  exists acct. split_and!; try assumption.
  - destruct Hkey as [(_ & _ & Hname)|(Hno & _)]; [exact Hname|].
    discriminate Hno.
  - apply list_elem_of_singleton in Hin. by subst acct.
Defined.

(** C7 on a run: an expired token and a forged one get the same answer
    and leave alice's account alone. *)
Lemma reset_rejected_token_run :
  @AuthenController.resetPassword fake_jwt "late:alice@x.com" "Other2!" world_alice
    = (Throw TokenRejected, world_alice) ∧
  @AuthenController.resetPassword fake_jwt "mail;alice@x.com" "Other2!" world_alice
    = (Throw TokenRejected, world_alice).
Proof.
  split.
  - apply (@reset_rejected_token fake_jwt world_alice "late:alice@x.com"
             "Other2!" TokenExpiredError eq_refl).
  - apply (@reset_rejected_token fake_jwt world_alice "mail;alice@x.com"
             "Other2!" JsonWebTokenError eq_refl).
Defined.

(** C8 refuted on a run: registering the existing "alice" with an empty
    or an absent password is answered "Username and password are
    required", not "Username already exists". *)
Lemma register_existing_empty_password :
  let empty := {| username := Some "alice"; email := None;
                  password := Some "" |} in
  let absent := {| username := Some "alice"; email := None;
                   password := None |} in
  is_Some (find_by "username" (Some (VStr "alice")) (accounts world_alice)) ∧
  (@createUser fake_bcrypt empty world_alice).1 = Return (Some 400) ∧
  (@AuthenController.register fake_bcrypt empty world_alice).1 = Throw MissingField ∧
  (@AuthenController.register fake_bcrypt empty world_alice).1 ≠ Throw UsernameTaken ∧
  (@AuthenController.register fake_bcrypt absent world_alice).1 = Throw MissingField.
Proof. split; [by eexists|by vm_compute]. Qed.

(** C8 as amended, on a run: registering the existing "alice" with
    another non-empty password. *)
Lemma register_existing_username_run :
  let dto := {| username := Some "alice"; email := None;
                password := Some "Other2!" |} in
  (@AuthenController.register fake_bcrypt dto world_alice).1 = Throw UsernameTaken ∧
  accounts (@AuthenController.register fake_bcrypt dto world_alice).2 = [alice].
Proof.
  intros dto.
  destruct (@register_existing_username fake_bcrypt world_alice alice "alice"
              None (Some "Other2!")) as [Htaken _]; [done|reflexivity|].
  destruct (Htaken eq_refl) as (_ & Hreg & Hacc). split; [exact Hreg|exact Hacc].
Defined.

(** C9 on a run: alice confirms her address twice with the same token and
    then asks for another verification mail. *)
Lemma confirm_verification_run :
  let T := "mail:alice@x.com" in
  let w2 := at_time 1100 (@verify fake_jwt T world_alice).2 in
  let w3 := at_time 1200 (@verify fake_jwt T w2).2 in
  (@AuthenController.acceptVerifyEmail fake_jwt T world_alice).1 = Return Verified ∧
  (@AuthenController.acceptVerifyEmail fake_jwt T w2).1 = Return Verified ∧
  (@AuthenController.verifyEmail fake_jwt fake_env fake_transport "alice@x.com" w3).1
    = Throw AlreadyVerified.
Proof.
  intros T w2 w3.
  destruct (@confirm_verification_twice fake_jwt fake_env fake_transport
              world_alice w2 w3 T "alice@x.com" alice
              {[ "email" := VStr "alice@x.com" ]}
              {[ "email" := VStr "alice@x.com" ]})
    as (_ & H1 & _ & _ & H2 & _ & _ & H3);
    [reflexivity|reflexivity|reflexivity|reflexivity|reflexivity|reflexivity
    |reflexivity|].
  split_and!; [exact H1|exact H2|exact H3].
Defined.

(** C10 on a run: a login with no key at all. *)
Lemma login_no_key_run :
  let dto := {| username := None; email := None;
                password := Some "Secret1!" |} in
  @AuthenController.login fake_bcrypt fake_jwt dto world_alice
    = (Throw InvalidCredentials, world_alice) ∧
  lookups (@validateUser fake_bcrypt fake_jwt dto world_alice).2 = [].
Proof.
  intros dto.
  destruct (@login_no_key fake_bcrypt fake_jwt world_alice dto)
    as (_ & Hlook & Hlogin); [reflexivity|reflexivity|].
  split; [exact Hlogin|exact Hlook].
Defined.

(** ** Runs for the further properties *)

(** X1 on a run: alice's login by username sends one lookup, by
    username. *)
Lemma validateUser_lookups_run :
  let dto := {| username := Some "alice"; email := None;
                password := Some "Secret1!" |} in
  lookups (@validateUser fake_bcrypt fake_jwt dto world_alice).2
    = [ByUsername "alice"] ∧
  ∀ k, ByEmail k ∉ login_lookups dto.
Proof.
  intros dto.
  destruct (@validateUser_lookups fake_bcrypt fake_jwt dto world_alice)
    as (Hlog & _ & Hmail).
  split; [exact Hlog|exact (Hmail eq_refl)].
Defined.

(** X2 on a run: the reply to alice's login. *)
Lemma login_reply_has_token_run :
  ∃ tok, Some "mail:alice@x.com" = Some tok ∧ tok ≠ "".
Proof.
  destruct (@login_reply_has_token fake_bcrypt fake_jwt
              {| username := Some "alice"; email := None;
                 password := Some "Secret1!" |}
              world_alice (log_lookup (ByUsername "alice") world_alice)
              {| message := "Login successfully";
                 token := Some "mail:alice@x.com" |} eq_refl)
    as (_ & tok & Htok & Hne & _).
  exists tok. split; [exact Htok|exact Hne].
Defined.

(** X3 on a run: carol, verified, logs in by email. *)
Lemma verified_email_login_run :
  (@validateUser fake_bcrypt fake_jwt
     {| username := None; email := Some "carol@x.com";
        password := Some "Pass3#" |} world_both).1
  = Return (Some "mail:carol@x.com").
Proof.
  destruct (@verified_email_login fake_bcrypt fake_jwt world_both carol
              "carol@x.com" "Pass3#" "$2b$Pass3#")
    as [Hv _]; [done|reflexivity|reflexivity|reflexivity|reflexivity|].
  exact Hv.
Defined.

(** X4 on a run: a wrong password for alice. *)
Lemma login_failure_uniform_run :
  @AuthenController.login fake_bcrypt fake_jwt
    {| username := Some "alice"; email := None; password := Some "guess" |}
    world_alice
  = (Throw InvalidCredentials, log_lookup (ByUsername "alice") world_alice).
Proof.
  apply (@login_failure_uniform fake_bcrypt fake_jwt world_alice "alice"
           "guess"); [done|].
  right. exists alice, "$2b$Secret1!". split_and!; reflexivity.
Defined.

(** X6 on a run: a register request with an empty username. *)
Lemma createUser_missing_field_run :
  @AuthenController.register fake_bcrypt
    {| username := Some ""; email := None; password := Some "Secret1!" |}
    world_alice
  = (Throw MissingField, world_alice).
Proof.
  destruct (@createUser_missing_field fake_bcrypt
              {| username := Some ""; email := None;
                 password := Some "Secret1!" |} world_alice)
    as [_ Hreg]; [left; reflexivity|].
  exact Hreg.
Defined.

(** X8 on a run: bob registers beside alice and carol. *)
Lemma createUser_keeps_usernames_unique_run :
  NoDup (usernames (accounts
    (@createUser fake_bcrypt
       {| username := Some "bob"; email := None; password := Some "Pw4$" |}
       world_both).2)).
Proof.
  apply (@createUser_keeps_usernames_unique fake_bcrypt).
  apply (bool_decide_unpack _). vm_compute. exact I.
Defined.

(** X9 on a run: alice registers twice. *)
Lemma register_twice_run :
  let first := {| username := Some "alice"; email := None;
                  password := Some "Secret1!" |} in
  let again := {| username := Some "alice"; email := None;
                  password := Some "Other2!" |} in
  let w2 := at_time 1500 (@createUser fake_bcrypt first world0).2 in
  (@AuthenController.register fake_bcrypt again w2).1 = Throw UsernameTaken.
Proof.
  intros first again w2.
  destruct (@register_twice fake_bcrypt world0 w2 "alice" "Secret1!"
              "Other2!" None None)
    as (_ & _ & Hreg & _); [done|done|done|reflexivity|reflexivity|].
  exact Hreg.
Defined.

(** X10 on a run: a reset request for an address nobody has. *)
Lemma forgotPassword_unknown_run :
  @AuthenController.forgotPassword fake_jwt fake_env fake_transport
    "nobody@x.com" world_alice
  = (Throw (BadRequestException "Account not exist"),
     log_lookup (ByEmail (Some (VStr "nobody@x.com"))) world_alice).
Proof.
  destruct (@forgotPassword_unknown fake_jwt fake_env fake_transport
              "nobody@x.com" world_alice)
    as (_ & Hroute & _); [reflexivity|].
  exact Hroute.
Defined.

(** X11 on a run: a reset request for alice's address. *)
Lemma forgotPassword_sends_link_run :
  outbox (@forgotPassword fake_jwt fake_env fake_transport "alice@x.com"
            world_alice).2
  = [@reset_mail fake_env "alice@x.com"
       "http://localhost:3000/reset-password?token=mail:alice@x.com"].
Proof.
  destruct (@forgotPassword_sends_link fake_jwt fake_env fake_transport
              "alice@x.com" world_alice alice)
    as (_ & _ & Hbox & _); [reflexivity|reflexivity|].
  exact Hbox.
Defined.

(** X12 on a run: the same request while the transport is down. *)
Lemma mail_failure_propagates_run :
  (@AuthenController.forgotPassword fake_jwt fake_env dead_transport
     "alice@x.com" world_alice).1 = Throw MailerError ∧
  (@AuthenController.verifyEmail fake_jwt fake_env dead_transport
     "alice@x.com" world_alice).1 = Throw MailerError.
Proof.
  destruct (@mail_failure_propagates fake_jwt fake_env dead_transport
              "alice@x.com" world_alice alice)
    as (_ & Hf & _ & Hv); [reflexivity|reflexivity|reflexivity|reflexivity|].
  split; [by rewrite Hf|by rewrite Hv].
Defined.

(** X13 on a run: the one mail in the outbox after alice's reset
    request. *)
Lemma mail_only_to_accounts_on_file_run :
  let m := @reset_mail fake_env "alice@x.com"
             "http://localhost:3000/reset-password?token=mail:alice@x.com" in
  m ∈ outbox world_alice ∨
  (to m = Some (VStr "alice@x.com") ∧
   ∃ acct, find_by "email" (Some (VStr "alice@x.com")) (accounts world_alice)
           = Some acct).
Proof.
  intros m.
  destruct (@mail_only_to_accounts_on_file fake_jwt fake_env fake_transport
              "alice@x.com" world_alice m) as [Hf _].
  apply Hf. apply list_elem_of_singleton. reflexivity.
Defined.

(** X16 on a run: a token that carries a username and no email. *)
Lemma token_for_unknown_account_run :
  (@AuthenController.resetPassword fake_jwt "user:alice" "Other2!"
     world_alice).1 = Throw (BadRequestException "Wrong token") ∧
  (@AuthenController.acceptVerifyEmail fake_jwt "user:alice" world_alice).1
    = Throw (ConflictException "Wrong token").
Proof.
  destruct (@token_for_unknown_account fake_jwt world_alice "user:alice"
              "Other2!" {[ "username" := VStr "alice" ]})
    as (_ & Hr & _ & Hv & _); [reflexivity|reflexivity|].
  split; [by rewrite Hr|by rewrite Hv].
Defined.

(** X17 on a run: an expired token on the verify route. *)
Lemma verify_rejected_token_run :
  @AuthenController.acceptVerifyEmail fake_jwt "late:alice@x.com" world_alice
  = (Throw (BadRequestException "Token invalid/expired"), world_alice).
Proof.
  destruct (@verify_rejected_token fake_jwt world_alice "late:alice@x.com"
              "Other2!" TokenExpiredError)
    as (_ & Hv & _); [reflexivity|].
  exact Hv.
Defined.

(** X19 on a run: alice's session token, presented to the reset route. *)
Lemma session_token_resets_password_run :
  (@resetPassword fake_jwt "mail:alice@x.com" "Other2!"
     (at_time 1300 world_alice)).1 = Return None.
Proof.
  destruct (@session_token_resets_password fake_bcrypt fake_jwt world_alice
              (at_time 1300 world_alice) alice alice "alice" "alice@x.com"
              "Secret1!" "$2b$Secret1!" "Other2!"
              {[ "email" := VStr "alice@x.com" ]})
    as (_ & _ & Hr & _);
    [done|reflexivity|reflexivity|reflexivity|reflexivity|reflexivity
    |reflexivity|reflexivity|].
  exact Hr.
Defined.

(** X20 on a run: alice's email login before and after she confirms her
    address. *)
Lemma confirm_unlocks_email_login_run :
  let T := "mail:alice@x.com" in
  let dto := {| username := None; email := Some "alice@x.com";
                password := Some "Secret1!" |} in
  let w2 := at_time 1100 (@verify fake_jwt T world_alice).2 in
  (@validateUser fake_bcrypt fake_jwt dto world_alice).1 = Return None ∧
  (@validateUser fake_bcrypt fake_jwt dto w2).1
    = Return (Some "mail:alice@x.com").
Proof.
  intros T dto w2.
  destruct (@confirm_unlocks_email_login fake_bcrypt fake_jwt world_alice w2
              alice T "alice@x.com" "Secret1!" "$2b$Secret1!"
              {[ "email" := VStr "alice@x.com" ]})
    as [Hbefore Hafter];
    [done|reflexivity|reflexivity|reflexivity|reflexivity|reflexivity
    |reflexivity|reflexivity|].
  split; [exact Hbefore|exact Hafter].
Defined.

(** X7 on a run: bob registers beside alice and carol. *)
Lemma createUser_outcomes_run :
  let dto := {| username := Some "bob"; email := None;
                password := Some "Pw4$" |} in
  accounts (@createUser fake_bcrypt dto world_both).2
  = [alice; carol;
     stamp 1000 (userAccountUtil.create "bob" "$2b$Pw4$")].
Proof.
  intros dto.
  destruct (@createUser_outcomes fake_bcrypt dto world_both
              (@createUser fake_bcrypt dto world_both).2 None eq_refl)
    as [_ [(Hno & _)|[(Hno & _)|(_ & _ & _ & Hrows & _)]]];
    [discriminate Hno|discriminate Hno|exact Hrows].
Defined.
